(** * Road KSI map (app_irap.py): the geometry pipeline

    A shallow embedding of [src/app_irap.py]: the loader [load_data], the
    CRS detection of step 2, the bounding-box and attribute filters of
    steps 3 to 5, the smoother [smooth_geometry] of step 6 and the colour
    function [get_ksi_color] of step 7.

    Conventions.
    - Python exceptions are values of [py A]: [Ok a] or [Raise e], where
      [e] is the text the exception prints as.
    - Coordinates are the finite doubles of the program, modelled by the
      rationals they denote; the only NaN the pipeline creates itself (the
      bounds of an empty geometry) is modelled by [None].
    - pandas, shapely, scipy and pyproj are not part of the repository:
      what the script calls from them is either written out after their
      documentation ([linspace], [new_LineString], [set_crs]) or taken as a
      variable of the section ([read_csv], [wkt_loads], [intersects],
      [splprep], [splev], [to_crs], [astype_int], [astype_str],
      [str_strip]). *)

From Stdlib Require Import List String Ascii ZArith QArith Bool Lia.
From Stdlib Require Import Permutation Sorting.Sorted Sorting.Mergesort Structures.Orders.
Import ListNotations.

Set Implicit Arguments.
Open Scope string_scope.
Open Scope Z_scope.

(** ** Python exceptions *)

Module Py.

Inductive py (A : Type) : Type :=
| Ok (a : A)
| Raise (e : string).
Arguments Ok {A} a.
Arguments Raise {A} e.

Definition bind {A B} (m : py A) (k : A -> py B) : py B :=
  match m with
  | Ok a => k a
  | Raise e => Raise e
  end.

(** [try: m except Exception as e: h e] *)
Definition try_except {A} (m : py A) (h : string -> A) : A :=
  match m with
  | Ok a => a
  | Raise e => h e
  end.

(** [Series.apply f] with a function that may raise: the cells are visited
    in order and the first exception leaves the whole call. *)
Fixpoint apply {A B} (f : A -> py B) (l : list A) : py (list B) :=
  match l with
  | [] => Ok []
  | a :: t =>
      match f a with
      | Raise e => Raise e
      | Ok b =>
          match apply f t with
          | Raise e => Raise e
          | Ok bs => Ok (b :: bs)
          end
      end
  end.

Definition raised {A} (m : py A) : bool :=
  match m with Ok _ => false | Raise _ => true end.

End Py.
Import Py.

Declare Scope py_scope.
Delimit Scope py_scope with py.
Notation "x <- m ;; k" := (Py.bind m (fun x => k))
  (at level 61, m at next level, right associativity) : py_scope.
Notation "' p <- m ;; k" := (Py.bind m (fun x => let p := x in k))
  (at level 61, p pattern, m at next level, right associativity) : py_scope.

(** ** Geometries (shapely) *)

Definition coord : Type := (Q * Q)%type.

#[warnings="-register-all"]
Inductive Geometry : Type :=
| Point (c : option coord)
| LineString (cs : list coord)
| Polygon (shell : list coord) (holes : list (list coord))
| MultiPoint (ps : list coord)
| MultiLineString (ls : list (list coord))
| MultiPolygon (ps : list (list coord * list (list coord)))
| GeometryCollection (gs : list Geometry).

Definition geom_type (g : Geometry) : string :=
  match g with
  | Point _ => "Point"
  | LineString _ => "LineString"
  | Polygon _ _ => "Polygon"
  | MultiPoint _ => "MultiPoint"
  | MultiLineString _ => "MultiLineString"
  | MultiPolygon _ => "MultiPolygon"
  | GeometryCollection _ => "GeometryCollection"
  end.

(** [geom.coords]: defined for points and lines, raises for the rest. *)
Definition coords (g : Geometry) : py (list coord) :=
  match g with
  | Point None => Ok []
  | Point (Some c) => Ok [c]
  | LineString cs => Ok cs
  | _ => Raise "Component rings have coordinate sequences, but the polygon does not"
  end.

(** [geom.xy]: the separate arrays of x and y values. *)
Definition xy (g : Geometry) : py (list Q * list Q) :=
  (cs <- coords g ;; Ok (map fst cs, map snd cs))%py.

(** [LineString(points)]: shapely builds an empty line from no point and
    refuses a single point. *)
Definition new_LineString (cs : list coord) : py Geometry :=
  match cs with
  | [_] => Raise "LineStrings must have at least 2 coordinate tuples"
  | _ => Ok (LineString cs)
  end.

(** [shapely.geometry.box(minx, miny, maxx, maxy)], counter-clockwise. *)
Definition box (minx miny maxx maxy : Q) : Geometry :=
  Polygon [(maxx, miny); (maxx, maxy); (minx, maxy); (minx, miny); (maxx, miny)] [].

(** Every coordinate of a geometry, for its bounds. *)
Fixpoint all_coords (g : Geometry) : list coord :=
  match g with
  | Point None => []
  | Point (Some c) => [c]
  | LineString cs => cs
  | Polygon shell holes => (shell ++ List.concat holes)%list
  | MultiPoint ps => ps
  | MultiLineString ls => List.concat ls
  | MultiPolygon ps => flat_map (fun p => (fst p ++ List.concat (snd p))%list) ps
  | GeometryCollection gs => flat_map all_coords gs
  end.

Definition Qltb (a b : Q) : bool := negb (Qle_bool b a).
Definition qmin (a b : Q) : Q := if Qle_bool a b then a else b.
Definition qmax (a b : Q) : Q := if Qle_bool a b then b else a.

(** [geom.bounds] = (minx, miny, maxx, maxy); all four are NaN for an empty
    geometry, which is [None] here. *)
Definition bounds (g : Geometry) : option (Q * Q * Q * Q) :=
  match all_coords g with
  | [] => None
  | (x, y) :: t =>
      Some (fold_left qmin (map fst t) x, fold_left qmin (map snd t) y,
            fold_left qmax (map fst t) x, fold_left qmax (map snd t) y)
  end.

(** ** numpy *)

(** [np.linspace(start, stop, num)] with the end point included. *)
Definition linspace (start stop : Q) (num : Z) : py (list Q) :=
  if num <? 0 then Raise "Number of samples must be non-negative."
  else
    let div := if 1 <? num then num - 1 else 1 in
    let step := ((stop - start) / inject_Z div)%Q in
    Ok (map (fun i => (start + inject_Z (Z.of_nat i) * step)%Q)
            (seq 0 (Z.to_nat num))).

(** ** The tables *)

(** A cell of the table [pd.read_csv] returns. *)
Inductive cell : Type :=
| NaN
| IntCell (z : Z)
| FloatCell (q : Q)
| StrCell (s : string).

(** [pd.DataFrame] as read from the upload: the header and the rows. *)
Record DataFrame : Type := {
  columns : list string;
  values : list (list cell)
}.

(** A row of the frame [load_data] returns. *)
Record Row : Type := {
  geometry : Geometry;
  geometry_type : string;
  Road_Number : string;
  speed_limit : Z;
  KSI_Count : Z
}.

Record GeoDataFrame : Type := {
  crs : option string;
  rows : list Row
}.

(** [gpd.GeoDataFrame()] *)
Definition GeoDataFrame_new : GeoDataFrame := {| crs := None; rows := [] |}.

(** [gdf.empty] *)
Definition empty (gdf : GeoDataFrame) : bool :=
  match rows gdf with [] => true | _ => false end.

(** [gdf[mask]] with the mask computed row by row. *)
Definition select (p : Row -> bool) (gdf : GeoDataFrame) : GeoDataFrame :=
  {| crs := crs gdf; rows := filter p (rows gdf) |}.

Definition set_geometry (g : Geometry) (r : Row) : Row :=
  {| geometry := g; geometry_type := geometry_type r;
     Road_Number := Road_Number r; speed_limit := speed_limit r;
     KSI_Count := KSI_Count r |}.

(** What the script shows to the user. *)
Inductive st_event : Type :=
| st_error (msg : string)
| st_warning (msg : string)
| st_exception (msg : string)
| folium_static (features : list (Row * string)).

(** ** Step 7: colour of a segment *)

Definition get_ksi_color (ksi : Z) : string :=
  if (1 <=? ksi) && (ksi <=? 4) then "yellow"
  else if (5 <=? ksi) && (ksi <=? 7) then "orange"
  else "red".

(** ** pandas: series, masks and sorting *)

Module StringOrder <: TotalLeBool.
Definition t := string.
Definition leb := String.leb.
Definition leb_total : forall a b, leb a b = true \/ leb b a = true :=
  String.leb_total.
End StringOrder.
Module StringSort := Sort StringOrder.

Module IntOrder <: TotalLeBool.
Definition t := Z.
Definition leb := Z.leb.
Definition leb_total : forall a b, leb a b = true \/ leb b a = true :=
  fun a b =>
    match Z.le_ge_cases a b with
    | or_introl H => or_introl (proj2 (Z.leb_le a b) H)
    | or_intror H => or_intror (proj2 (Z.leb_le b a) H)
    end.
End IntOrder.
Module IntSort := Sort IntOrder.

Section Series.
Context {A : Type}.

(** [frame[mask]]: the rows where the boolean series is true. *)
Fixpoint mask_rows (mask : list bool) (l : list A) : list A :=
  match mask, l with
  | b :: m, x :: t => if b then x :: mask_rows m t else mask_rows m t
  | _, _ => []
  end.

(** [Series.unique()]: the distinct values, in order of first appearance. *)
Fixpoint unique (eqb : A -> A -> bool) (l : list A) : list A :=
  match l with
  | [] => []
  | x :: t => x :: filter (fun y => negb (eqb y x)) (unique eqb t)
  end.

(** [Series.isin(values)] on one cell. *)
Definition isin (eqb : A -> A -> bool) (values : list A) (x : A) : bool :=
  existsb (eqb x) values.

(** The position of a label in an index. *)
Definition position (eqb : A -> A -> bool) (x : A) : list A -> option nat :=
  fix go l :=
    match l with
    | [] => None
    | y :: t => if eqb y x then Some O else option_map S (go t)
    end.
End Series.

(** Element-wise [&] and [|] of two boolean series over the same rows. *)
Definition series_and (a b : list bool) : list bool :=
  map (fun p => fst p && snd p) (combine a b).
Definition series_or (a b : list bool) : list bool :=
  map (fun p => fst p || snd p) (combine a b).

Definition fillna (v : cell) (c : cell) : cell :=
  match c with NaN => v | _ => c end.

(** [df[name]]: the cells of a column, a [KeyError] when it is absent. A row
    shorter than the header reads as missing values. *)
Definition getitem (df : DataFrame) (name : string) : py (list cell) :=
  match position String.eqb name (columns df) with
  | None => Raise ("'" ++ name ++ "'")
  | Some i => Ok (map (fun row => nth i row NaN) (values df))
  end.

(** [gdf[mask]] *)
Definition loc (mask : list bool) (gdf : GeoDataFrame) : GeoDataFrame :=
  {| crs := crs gdf; rows := mask_rows mask (rows gdf) |}.

(** [Series.min()] and [Series.max()]: missing values are skipped and the
    result is missing when nothing is left. *)
Definition series_fold (f : Q -> Q -> Q) (l : list (option Q)) : option Q :=
  fold_left (fun acc x =>
               match acc, x with
               | Some a, Some b => Some (f a b)
               | None, _ => x
               | _, None => acc
               end) l None.
Definition series_min := series_fold qmin.
Definition series_max := series_fold qmax.

(** [a > b] and [a < b] on a possibly missing float: false on NaN. *)
Definition gt (a : option Q) (b : Q) : bool :=
  match a with Some a => Qltb b a | None => false end.
Definition lt (a : option Q) (b : Q) : bool :=
  match a with Some a => Qltb a b | None => false end.

(** ** geopandas: coordinate reference systems *)

(** [gdf.set_crs(c, inplace=True)]: refuses to replace a different CRS. *)
Definition set_crs (c : string) (gdf : GeoDataFrame) : py GeoDataFrame :=
  match crs gdf with
  | None => Ok {| crs := Some c; rows := rows gdf |}
  | Some c0 =>
      if (c0 =? c)%string then Ok gdf
      else Raise "The GeoDataFrame already has a CRS which is not equal to the passed CRS."
  end.

(** ** Step 3: the region of interest *)

Record BBox : Type := { south : Q; north : Q; west : Q; east : Q }.

Definition bbox_coords : BBox :=
  {| south := 512 # 10; north := 523 # 10; west := - (2 # 10); east := 15 # 10 |}.

Definition essex_bbox : Geometry :=
  box (west bbox_coords) (south bbox_coords) (east bbox_coords) (north bbox_coords).

(** ** The sidebar: what the user has set on this run *)

Record Sidebar : Type := {
  all_roads : bool;
  (** the value of the road multiselect, given its options and default *)
  multiselect_roads : list string -> list string -> list string;
  all_speeds : bool;
  multiselect_speeds : list Z -> list Z -> list Z;
  filter_1_4 : bool;
  filter_5_7 : bool;
  filter_8 : bool
}.

(** ** The script *)

Section App.

(** shapely *)
Variable wkt_loads : string -> py Geometry.
Variable intersects : Geometry -> Geometry -> bool.
(** scipy.interpolate: the spline [tck] stays abstract *)
Variable Tck : Type.
Variable splprep : list (list Q) -> Q -> py (Tck * list Q).
Variable splev : list Q -> Tck -> py (list (list Q)).
(** pyproj, through [GeoDataFrame.to_crs]: source CRS, target CRS, shape *)
Variable to_crs : string -> string -> Geometry -> Geometry.
(** pandas: reading the upload, and the conversions of one cell *)
Variable UploadedFile : Type.
Variable read_csv : UploadedFile -> py DataFrame.
Variable astype_int : cell -> py Z.
Variable astype_str : cell -> string.
Variable str_strip : string -> string.

(** *** Step 1: [load_data] *)

(** [wkt.loads] on a cell: only text is read. *)
Definition wkt_loads_cell (c : cell) : py Geometry :=
  match c with
  | StrCell s => wkt_loads s
  | _ => Raise "Only str is accepted."
  end.

(** The frame between lines 62 and 73: the cells of a row, its shape and
    its [geometry_type]. *)
Definition typed_row : Type := (list cell * (Geometry * string))%type.

Definition is_LineString_row (r : typed_row) : bool :=
  (snd (snd r) =? "LineString")%string.

Definition make_row (x : typed_row * string * Z * Z) : Row :=
  let '(r, road, speed, ksi) := x in
  {| geometry := fst (snd r); geometry_type := snd (snd r);
     Road_Number := road; speed_limit := speed; KSI_Count := ksi |}.

(** Lines 57 to 73: the [try] of [load_data] once the table is read. *)
Definition load_data_frame (df : DataFrame) : py (list st_event * GeoDataFrame) :=
  if negb (existsb (String.eqb "geometry") (columns df)) then
    Ok ([st_error "Error: The uploaded file must contain a 'geometry' column."],
        GeoDataFrame_new)
  else
    (col <- getitem df "geometry" ;;
     geoms <- Py.apply wkt_loads_cell col ;;
     let types := map geom_type geoms in
     let df1 : list typed_row := combine (values df) (combine geoms types) in
     let df2 := mask_rows (map is_LineString_row df1) df1 in
     match df2 with
     | [] =>
         Ok ([st_error "No valid LineString geometries found in the dataset."],
             GeoDataFrame_new)
     | _ =>
         let cells := {| columns := columns df; values := map fst df2 |} in
         road <- getitem cells "Road Number" ;;
         let road := map (fun c => str_strip (astype_str (fillna (StrCell "Unknown") c))) road in
         speed <- getitem cells "speed_limit" ;;
         speed <- Py.apply astype_int (map (fillna (IntCell 0)) speed) ;;
         ksi <- getitem cells "KSI Count" ;;
         ksi <- Py.apply astype_int (map (fillna (IntCell 0)) ksi) ;;
         Ok ([], {| crs := None;
                    rows := map make_row
                              (combine (combine (combine df2 road) speed) ksi) |})
     end)%py.

(** The body of the [try] of [load_data]. *)
Definition load_data_try (file : UploadedFile) : py (list st_event * GeoDataFrame) :=
  (df <- read_csv file ;; load_data_frame df)%py.

Definition load_data (file : UploadedFile) : list st_event * GeoDataFrame :=
  try_except (load_data_try file)
    (fun e => ([st_error ("Error loading data: " ++ e)], GeoDataFrame_new)).

(** *** Step 2: detect and apply the CRS (the branch of a non-empty frame) *)

Definition gdf_to_crs (c : string) (gdf : GeoDataFrame) : py GeoDataFrame :=
  match crs gdf with
  | None => Raise "Cannot transform naive geometries.  Please set a crs on the object first."
  | Some c0 =>
      Ok {| crs := Some c;
            rows := map (fun r => set_geometry (to_crs c0 c (geometry r)) r) (rows gdf) |}
  end.

Definition bounds_column (gdf : GeoDataFrame) (f : Q * Q * Q * Q -> Q) : list (option Q) :=
  map (fun r => option_map f (bounds (geometry r))) (rows gdf).

Definition minx (b : Q * Q * Q * Q) : Q := let '(a, _, _, _) := b in a.
Definition miny (b : Q * Q * Q * Q) : Q := let '(_, a, _, _) := b in a.
Definition maxx (b : Q * Q * Q * Q) : Q := let '(_, _, a, _) := b in a.
Definition maxy (b : Q * Q * Q * Q) : Q := let '(_, _, _, a) := b in a.

(** The test of line 89. *)
Definition looks_geographic (gdf : GeoDataFrame) : bool :=
  let min_x := series_min (bounds_column gdf minx) in
  let max_x := series_max (bounds_column gdf maxx) in
  let min_y := series_min (bounds_column gdf miny) in
  let max_y := series_max (bounds_column gdf maxy) in
  gt min_x (- inject_Z 180) && lt max_x (inject_Z 180)
  && gt min_y (- inject_Z 90) && lt max_y (inject_Z 90).

Definition apply_crs (gdf : GeoDataFrame) : py GeoDataFrame :=
  if looks_geographic gdf then set_crs "EPSG:4326" gdf
  else (gdf <- set_crs "EPSG:32631" gdf ;; gdf_to_crs "EPSG:4326" gdf)%py.

(** *** Step 3: bounding box and rows with a KSI count of 0 *)

Definition filter_bbox (gdf : GeoDataFrame) : GeoDataFrame :=
  loc (map (fun r => intersects (geometry r) essex_bbox) (rows gdf)) gdf.

Definition filter_nonzero (gdf : GeoDataFrame) : GeoDataFrame :=
  loc (map (fun r => negb (KSI_Count r =? 0)) (rows gdf)) gdf.

(** *** Step 4: road numbers and speed limits *)

Definition all_road_numbers (gdf : GeoDataFrame) : list string :=
  StringSort.sort (unique String.eqb (map Road_Number (rows gdf))).

Definition speed_limits (gdf : GeoDataFrame) : list Z :=
  IntSort.sort (unique Z.eqb (map speed_limit (rows gdf))).

Definition selected_roads (sb : Sidebar) (gdf : GeoDataFrame) : list string :=
  if all_roads sb then all_road_numbers gdf
  else multiselect_roads sb (all_road_numbers gdf) (firstn 5 (all_road_numbers gdf)).

Definition selected_speed (sb : Sidebar) (gdf : GeoDataFrame) : list Z :=
  if all_speeds sb then speed_limits gdf
  else multiselect_speeds sb (speed_limits gdf) (firstn 5 (speed_limits gdf)).

(** Line 122. *)
Definition filter_attributes (roads : list string) (speeds : list Z)
    (gdf : GeoDataFrame) : GeoDataFrame :=
  loc (series_and (map (fun r => isin String.eqb roads (Road_Number r)) (rows gdf))
                  (map (fun r => isin Z.eqb speeds (speed_limit r)) (rows gdf))) gdf.

(** *** Step 5: the KSI buckets *)

Definition ksi_1_4 (gdf : GeoDataFrame) : list bool :=
  series_and (map (fun r => KSI_Count r >=? 1) (rows gdf))
             (map (fun r => KSI_Count r <=? 4) (rows gdf)).
Definition ksi_5_7 (gdf : GeoDataFrame) : list bool :=
  series_and (map (fun r => KSI_Count r >=? 5) (rows gdf))
             (map (fun r => KSI_Count r <=? 7) (rows gdf)).
Definition ksi_8 (gdf : GeoDataFrame) : list bool :=
  map (fun r => KSI_Count r >=? 8) (rows gdf).

Definition ksi_conditions (f_1_4 f_5_7 f_8 : bool) (gdf : GeoDataFrame) : list (list bool) :=
  ((if f_1_4 then [ksi_1_4 gdf] else [])
     ++ (if f_5_7 then [ksi_5_7 gdf] else [])
     ++ (if f_8 then [ksi_8 gdf] else []))%list.

(** Lines 141 to 154. *)
Definition filter_ksi (f_1_4 f_5_7 f_8 : bool) (gdf_filtered : GeoDataFrame) : GeoDataFrame :=
  if negb (empty gdf_filtered) then
    match ksi_conditions f_1_4 f_5_7 f_8 gdf_filtered with
    | combined_ksi :: ksi_conditions =>
        loc (fold_left series_or ksi_conditions combined_ksi) gdf_filtered
    | [] => gdf_filtered
    end
  else gdf_filtered.

(** *** Step 6: smoothing *)

(** The body of the [try] of [smooth_geometry]. *)
Definition smooth_geometry_try (geom : Geometry) (smoothing_factor : Q) (num_points : Z)
    : py Geometry :=
  if (geom_type geom =? "LineString")%string then
    (cs <- coords geom ;;
     if 2 <? Z.of_nat (List.length cs) then
       ' (x, y) <- xy geom ;;
       ' (tck, u) <- splprep [x; y] smoothing_factor ;;
       unew <- linspace 0%Q 1%Q num_points ;;
       out <- splev unew tck ;;
       new_LineString (combine (nth 0 out []) (nth 1 out []))
     else Ok geom)%py
  else Ok geom.

Definition smooth_geometry (geom : Geometry) (smoothing_factor : Q) (num_points : Z)
    : Geometry :=
  try_except (smooth_geometry_try geom smoothing_factor num_points) (fun _ => geom).

(** Lines 175 to 180. *)
Definition smooth (gdf_filtered : GeoDataFrame) : GeoDataFrame :=
  if negb (empty gdf_filtered) then
    {| crs := crs gdf_filtered;
       rows := map (fun r => set_geometry (smooth_geometry (geometry r) 0%Q 500) r)
                   (rows gdf_filtered) |}
  else gdf_filtered.

(** *** Step 7 and the whole run *)

Definition features (gdf : GeoDataFrame) : list (Row * string) :=
  map (fun r => (r, get_ksi_color (KSI_Count r))) (rows gdf).

Definition render (gdf_filtered : GeoDataFrame) : list st_event :=
  if negb (empty gdf_filtered) then [folium_static (features gdf_filtered)]
  else [st_warning "No data matches the selected filters or there is an issue rendering the map."].

(** Steps 3 to 6 on the frame of step 2. *)
Definition filtered (sb : Sidebar) (gdf : GeoDataFrame) : GeoDataFrame :=
  let gdf := filter_nonzero (filter_bbox gdf) in
  let gdf_filtered := filter_attributes (selected_roads sb gdf) (selected_speed sb gdf) gdf in
  let gdf_filtered := filter_ksi (filter_1_4 sb) (filter_5_7 sb) (filter_8 sb) gdf_filtered in
  smooth gdf_filtered.

(** One run of the script; [st.stop()] ends it with what was shown so far,
    and an exception nobody catches is shown by Streamlit. *)
Definition run (sb : Sidebar) (uploaded_file : option UploadedFile) : list st_event :=
  match uploaded_file with
  | None => [st_warning "Please upload a CSV file to proceed."]
  | Some file =>
      let '(shown, gdf) := load_data file in
      if negb (empty gdf) then
        match apply_crs gdf with
        | Raise e => (shown ++ [st_exception e])%list
        | Ok gdf => (shown ++ render (filtered sb gdf))%list
        end
      else shown
  end.

End App.

(** ** A concrete instance of the libraries

    Small executable stand-ins for the library calls, used to run the model
    on concrete tables. [wkt_loads] is a finite table of the answers of
    shapely's reader; [intersects] is exact for a point or a line against an
    axis-parallel rectangle, the only question the script asks; the spline is
    the chord from the first to the last vertex, with scipy's requirement of
    more than 3 points for a cubic fit. *)

Module Sample.

Definition pt (x y : Q) : coord := (x, y).

Definition wkt_loads (s : string) : py Geometry :=
  if (s =? "LINESTRING (0 0, 1 1)")%string then
    Ok (LineString [pt 0 0; pt 1 1])
  else if (s =? "LINESTRING (0.5 51.5, 0.6 51.6)")%string then
    Ok (LineString [pt (5 # 10) (515 # 10); pt (6 # 10) (516 # 10)])
  else if (s =? "LINESTRING (0.5 51.5, 0.55 51.6, 0.6 51.5, 0.65 51.6, 0.7 51.5)")%string then
    Ok (LineString [pt (50 # 100) (515 # 10); pt (55 # 100) (516 # 10);
                    pt (60 # 100) (515 # 10); pt (65 # 100) (516 # 10);
                    pt (70 # 100) (515 # 10)])
  else if (s =? "LINESTRING EMPTY")%string then Ok (LineString [])
  else if (s =? "POINT (0.5 51.5)")%string then Ok (Point (Some (pt (5 # 10) (515 # 10))))
  else Raise "ParseException: Unknown type".

(** One constraint [p * t <= q] of the clipping of a segment, narrowing the
    interval [lo, hi] of parameters still inside. *)
Definition clip (p q : Q) (st : option (Q * Q)) : option (Q * Q) :=
  match st with
  | None => None
  | Some (lo, hi) =>
      if Qeq_bool p 0 then (if Qle_bool 0 q then st else None)
      else if Qle_bool p 0 then Some (qmax lo (q / p), hi)
      else Some (lo, qmin hi (q / p))
  end.

Definition segment_meets (b : Q * Q * Q * Q) (a c : coord) : bool :=
  let '(x0, y0, x1, y1) := b in
  let '(ax, ay) := a in
  let '(cx, cy) := c in
  match clip (cy - ay) (y1 - ay)
          (clip (- (cy - ay)) (ay - y0)
             (clip (cx - ax) (x1 - ax)
                (clip (- (cx - ax)) (ax - x0) (Some (0, 1)))))%Q with
  | Some (lo, hi) => Qle_bool lo hi
  | None => false
  end.

Fixpoint path_meets (b : Q * Q * Q * Q) (cs : list coord) : bool :=
  match cs with
  | [] => false
  | [a] => segment_meets b a a
  | a :: ((c :: _) as t) => segment_meets b a c || path_meets b t
  end.

Definition intersects (g other : Geometry) : bool :=
  match bounds other with
  | None => false
  | Some b =>
      match g with
      | Point (Some c) => segment_meets b c c
      | LineString cs => path_meets b cs
      | _ => false
      end
  end.

Definition Tck : Type := (coord * coord)%type.

Definition splprep (x : list (list Q)) (s : Q) : py (Tck * list Q) :=
  match x with
  | [xs; ys] =>
      if Nat.leb (List.length xs) 3 then Raise "m > k must hold"
      else Ok ((pt (hd 0%Q xs) (hd 0%Q ys), pt (last xs 0%Q) (last ys 0%Q)), [])
  | _ => Raise "a planar curve is expected"
  end.

Definition splev (u : list Q) (tck : Tck) : py (list (list Q)) :=
  let '((ax, ay), (bx, by_)) := tck in
  Ok [map (fun t => ax + t * (bx - ax)) u; map (fun t => ay + t * (by_ - ay)) u]%Q.

Definition to_crs (src dst : string) (g : Geometry) : Geometry := g.

Definition astype_int (c : cell) : py Z :=
  match c with
  | IntCell z => Ok z
  | FloatCell q => Ok (Z.quot (Qnum q) (Z.pos (Qden q)))
  | StrCell _ => Raise "invalid literal for int() with base 10"
  | NaN => Raise "cannot convert float NaN to integer"
  end.

Definition astype_str (c : cell) : string :=
  match c with
  | StrCell s => s
  | IntCell 0 => "0"
  | _ => "nan"
  end.

Fixpoint lstrip (s : string) : string :=
  match s with
  | String " " t => lstrip t
  | _ => s
  end.

Definition rev_string (s : string) : string :=
  string_of_list_ascii (rev (list_ascii_of_string s)).

Definition str_strip (s : string) : string :=
  rev_string (lstrip (rev_string (lstrip s))).

(** The upload is given by the table pandas reads from it. *)
Definition read_csv (file : DataFrame) : py DataFrame := Ok file.

Definition load_data := load_data wkt_loads read_csv astype_int astype_str str_strip.
Definition filter_bbox := filter_bbox intersects.
Definition smooth_geometry := smooth_geometry splprep splev.
Definition smooth := smooth splprep splev.
Definition run :=
  run wkt_loads intersects splprep splev to_crs read_csv astype_int astype_str str_strip.

Definition sidebar_all : Sidebar :=
  {| all_roads := true; multiselect_roads := fun _ d => d;
     all_speeds := true; multiselect_speeds := fun _ d => d;
     filter_1_4 := true; filter_5_7 := true; filter_8 := true |}.

End Sample.

(** ** Reference predicates

    What the statements below compare the code with. *)

(** The row predicate the masks of [filter_ksi] amount to. *)
Definition ksi_keeps (f_1_4 f_5_7 f_8 : bool) (r : Row) : bool :=
  let k := KSI_Count r in
  if f_1_4 || f_5_7 || f_8 then
    (f_1_4 && ((k >=? 1) && (k <=? 4)))
    || (f_5_7 && ((k >=? 5) && (k <=? 7)))
    || (f_8 && (k >=? 8))
  else true.

(** [k] lies in a bucket that is switched on. *)
Definition in_enabled_bucket (f_1_4 f_5_7 f_8 : bool) (k : Z) : Prop :=
  (f_1_4 = true /\ 1 <= k <= 4) \/ (f_5_7 = true /\ 5 <= k <= 7) \/ (f_8 = true /\ 8 <= k).



Definition frame_of (l : list Row) : GeoDataFrame := {| crs := None; rows := l |}.

(** What scipy documents of [splev] on a spline fitted by [splprep]: one
    array per dimension of the curve, each as long as the parameter
    array. *)
Definition splev_shape (Tck : Type) (splprep : list (list Q) -> Q -> py (Tck * list Q))
    (splev : list Q -> Tck -> py (list (list Q))) : Prop :=
  forall x s tck u unew out,
    splprep x s = Ok (tck, u) -> splev unew tck = Ok out ->
    List.length out = List.length x
    /\ Forall (fun a => List.length a = List.length unew) out.

(** The shape is a line. *)
Definition is_LineString (g : Geometry) : bool :=
  (geom_type g =? "LineString")%string.

(** Number of vertices of a line (0 for the other shapes). *)
Definition vertices (g : Geometry) : nat :=
  match g with LineString cs => List.length cs | _ => O end.

(** Every coordinate of the frame lies strictly inside longitude
    (-180,180) and latitude (-90,90), and there is one at least: the
    combined bounding box exists and lies strictly within that range. *)
Definition within_geographic_range (gdf : GeoDataFrame) : Prop :=
  (exists r, In r (rows gdf) /\ all_coords (geometry r) <> [])
  /\ (forall r x y, In r (rows gdf) -> In (x, y) (all_coords (geometry r)) ->
                    (- inject_Z 180 < x /\ x < inject_Z 180
                     /\ - inject_Z 90 < y /\ y < inject_Z 90)%Q).

(** The rows of the table that [load_data] keeps, given the shapes read
    from its geometry column: those typed "LineString", in order. *)
Definition line_rows (vals : list (list cell)) (geoms : list Geometry) : list typed_row :=
  filter is_LineString_row (combine vals (combine geoms (map geom_type geoms))).

(** A table of three rows used to run the loader: a line of 2 points, a
    point and an empty line. *)
Definition sample_table : DataFrame :=
  {| columns := ["geometry"; "Road Number"; "speed_limit"; "KSI Count"];
     values := [[StrCell "LINESTRING (0.5 51.5, 0.6 51.6)"; StrCell "A12";
                 IntCell 30; IntCell 3];
                [StrCell "POINT (0.5 51.5)"; StrCell "B1"; StrCell "fast"; IntCell 10];
                [StrCell "LINESTRING EMPTY"; NaN; NaN; FloatCell (25 # 10)]] |}.

Definition sample_row : Row :=
  {| geometry := LineString [(5 # 10, 515 # 10); (6 # 10, 516 # 10)];
     geometry_type := "LineString";
     Road_Number := "A12"; speed_limit := 30; KSI_Count := 3 |}.

(** The rows of the table with the shape read from each, those of a
    LineString only: what [load_data] keeps. *)
Definition kept_rows (vals : list (list cell)) (geoms : list Geometry)
    : list (list cell * Geometry) :=
  filter (fun cg => is_LineString (snd cg)) (combine vals geoms).

(** The record made of a kept row: its shape, and its three attributes read
    from the cells at the positions of their columns, a missing road
    replaced by "Unknown" and a missing number by 0 before conversion. *)
Definition record_of_cells (astype_int : cell -> py Z) (astype_str : cell -> string)
    (str_strip : string -> string) (ir isp ik : nat)
    (cg : list cell * Geometry) (r : Row) : Prop :=
  geometry r = snd cg
  /\ geometry_type r = "LineString"
  /\ Road_Number r = str_strip (astype_str (fillna (StrCell "Unknown") (nth ir (fst cg) NaN)))
  /\ astype_int (fillna (IntCell 0) (nth isp (fst cg) NaN)) = Ok (speed_limit r)
  /\ astype_int (fillna (IntCell 0) (nth ik (fst cg) NaN)) = Ok (KSI_Count r).

(** What steps 3 to 5 ask of a row, for given selections. *)
Definition survives (intersects : Geometry -> Geometry -> bool)
    (roads : list string) (speeds : list Z) (f_1_4 f_5_7 f_8 : bool) (r : Row) : bool :=
  intersects (geometry r) essex_bbox
  && negb (KSI_Count r =? 0)
  && (isin String.eqb roads (Road_Number r) && isin Z.eqb speeds (speed_limit r))
  && ksi_keeps f_1_4 f_5_7 f_8 r.


(** * Properties *)

(** ** Series and masks *)

Lemma mask_rows_map {A} (p : A -> bool) (l : list A) :
  mask_rows (map p l) l = filter p l.
Proof.
  induction l as [|x t IH]; simpl; [reflexivity|].
  rewrite IH. reflexivity.
Qed.

Lemma series_and_map {A} (p q : A -> bool) (l : list A) :
  series_and (map p l) (map q l) = map (fun x => p x && q x) l.
Proof.
  unfold series_and. induction l as [|x t IH]; simpl; [reflexivity|].
  f_equal. exact IH.
Qed.

Lemma series_or_map {A} (p q : A -> bool) (l : list A) :
  series_or (map p l) (map q l) = map (fun x => p x || q x) l.
Proof.
  unfold series_or. induction l as [|x t IH]; simpl; [reflexivity|].
  f_equal. exact IH.
Qed.

Lemma loc_map (p : Row -> bool) (gdf : GeoDataFrame) :
  loc (map p (rows gdf)) gdf = select p gdf.
Proof. unfold loc, select. rewrite mask_rows_map. reflexivity. Qed.

Lemma select_ext (p q : Row -> bool) (gdf : GeoDataFrame) :
  (forall r, p r = q r) -> select p gdf = select q gdf.
Proof. intros H. unfold select. f_equal. apply filter_ext. exact H. Qed.

Lemma select_all (gdf : GeoDataFrame) : select (fun _ => true) gdf = gdf.
Proof.
  destruct gdf as [c l]. unfold select. simpl. f_equal.
  induction l as [|x t IH]; simpl; [reflexivity|]. rewrite IH. reflexivity.
Qed.

Lemma select_empty (p : Row -> bool) (gdf : GeoDataFrame) :
  rows gdf = [] -> select p gdf = gdf.
Proof. destruct gdf as [c l]. simpl. intros ->. reflexivity. Qed.



Lemma select_In (p : Row -> bool) (gdf : GeoDataFrame) (r : Row) :
  In r (rows (select p gdf)) <-> In r (rows gdf) /\ p r = true.
Proof. unfold select. simpl. apply filter_In. Qed.

(** ** The filters are selections by a predicate on the row *)

Lemma filter_ksi_select (f_1_4 f_5_7 f_8 : bool) (gdf : GeoDataFrame) :
  filter_ksi f_1_4 f_5_7 f_8 gdf = select (ksi_keeps f_1_4 f_5_7 f_8) gdf.
Proof.
  unfold filter_ksi. destruct (empty gdf) eqn:He; simpl.
  - unfold empty in He. destruct (rows gdf) eqn:Hr; [|discriminate].
    symmetry. apply select_empty. exact Hr.
  - unfold ksi_conditions, ksi_1_4, ksi_5_7, ksi_8.
    destruct f_1_4, f_5_7, f_8; simpl;
      rewrite ?series_and_map, ?series_or_map, ?loc_map;
      try (apply select_ext; intros r; unfold ksi_keeps; simpl;
           rewrite ?orb_false_r; reflexivity).
    symmetry. apply select_all.
Qed.

Lemma filter_nonzero_select (gdf : GeoDataFrame) :
  filter_nonzero gdf = select (fun r => negb (KSI_Count r =? 0)) gdf.
Proof. apply loc_map. Qed.

Lemma filter_attributes_select (roads : list string) (speeds : list Z) (gdf : GeoDataFrame) :
  filter_attributes roads speeds gdf
  = select (fun r => isin String.eqb roads (Road_Number r)
                     && isin Z.eqb speeds (speed_limit r)) gdf.
Proof. unfold filter_attributes. rewrite series_and_map. apply loc_map. Qed.

Lemma filter_bbox_select (intersects : Geometry -> Geometry -> bool) (gdf : GeoDataFrame) :
  filter_bbox intersects gdf = select (fun r => intersects (geometry r) essex_bbox) gdf.
Proof. apply loc_map. Qed.

(** ** Step 7: the colour function *)

(** C10: [get_ksi_color] answers on every integer, with one of its three
    colours, and every value outside [1,7] (zero and the negative ones
    included) is drawn red. *)
Theorem get_ksi_color_total_red_outside (ksi : Z) :
  (get_ksi_color ksi = "yellow" \/ get_ksi_color ksi = "orange"
   \/ get_ksi_color ksi = "red")
  /\ (ksi < 1 \/ 7 < ksi -> get_ksi_color ksi = "red").
Proof.
  unfold get_ksi_color.
  destruct (1 <=? ksi) eqn:H1, (ksi <=? 4) eqn:H4, (5 <=? ksi) eqn:H5,
    (ksi <=? 7) eqn:H7; simpl; split; auto; intros [H|H]; lia.
Qed.

Lemma get_ksi_color_total_red_outside_witness :
  (0 < 1 \/ 7 < 0) /\ get_ksi_color 0 = "red".
Proof.
  split; [left; lia|].
  apply (proj2 (get_ksi_color_total_red_outside 0)). left; lia.
Defined.

(** ** Step 5: the KSI buckets *)

Lemma ksi_keeps_spec (f_1_4 f_5_7 f_8 : bool) (r : Row) :
  f_1_4 || f_5_7 || f_8 = true ->
  ksi_keeps f_1_4 f_5_7 f_8 r = true
  <-> in_enabled_bucket f_1_4 f_5_7 f_8 (KSI_Count r).
Proof.
  intros Hsome. unfold ksi_keeps, in_enabled_bucket. rewrite Hsome.
  rewrite !orb_true_iff, !andb_true_iff, !Z.geb_le, !Z.leb_le. tauto.
Qed.

(** C3 (as stated) fails: with the three buckets switched off the guard of
    line 150 skips the selection, and a one-row frame with a KSI count of 3
    comes out as it went in. *)
Lemma filter_ksi_all_disabled_not_empty :
  let r := {| geometry := LineString [(0, 0); (1, 1)]%Q; geometry_type := "LineString";
              Road_Number := "A12"; speed_limit := 30; KSI_Count := 3 |} in
  rows (frame_of [r]) <> []
  /\ ~ in_enabled_bucket false false false (KSI_Count r)
  /\ rows (filter_ksi false false false (frame_of [r])) = [r].
Proof.
  simpl. repeat split; try discriminate.
  unfold in_enabled_bucket. intros [[H _]|[[H _]|[H _]]]; discriminate.
Qed.

(** C3 (amended): when at least one bucket is switched on, a record passes
    the severity filter exactly when its KSI count lies in a bucket that is
    on, among [1,4], [5,7] and [8,oo); when the three are off the filter is
    skipped and the record set is unchanged. *)
Theorem filter_ksi_enabled_buckets (f_1_4 f_5_7 f_8 : bool) (gdf : GeoDataFrame) :
  (f_1_4 || f_5_7 || f_8 = true ->
   forall r, In r (rows (filter_ksi f_1_4 f_5_7 f_8 gdf))
             <-> In r (rows gdf) /\ in_enabled_bucket f_1_4 f_5_7 f_8 (KSI_Count r))
  /\ filter_ksi false false false gdf = gdf.
Proof.
  split.
  - intros Hsome r. rewrite filter_ksi_select, select_In.
    rewrite (ksi_keeps_spec _ _ _ _ Hsome). tauto.
  - rewrite filter_ksi_select. apply select_all.
Qed.

Lemma filter_ksi_enabled_buckets_witness :
  let r := {| geometry := LineString [(0, 0); (1, 1)]%Q; geometry_type := "LineString";
              Road_Number := "A12"; speed_limit := 30; KSI_Count := 6 |} in
  false || true || false = true
  /\ (In r (rows (filter_ksi false true false (frame_of [r])))
      <-> In r (rows (frame_of [r])) /\ in_enabled_bucket false true false (KSI_Count r)).
Proof.
  intros r. split; [reflexivity|].
  apply (proj1 (filter_ksi_enabled_buckets false true false (frame_of [r]))).
  reflexivity.
Defined.

(** ** Step 3: the region of interest and the zero counts *)

(** C5 (as stated) fails: line 103 drops the rows whose count is 0 and
    nothing else, so a segment inside the rectangle whose count reads -1
    stays, with a count below 1. *)
Lemma spatial_filter_keeps_negative_count :
  let r := {| geometry := LineString [(5 # 10, 515 # 10); (6 # 10, 516 # 10)];
              geometry_type := "LineString";
              Road_Number := "A12"; speed_limit := 30; KSI_Count := -1 |} in
  In r (rows (filter_nonzero (Sample.filter_bbox (frame_of [r]))))
  /\ ~ (KSI_Count r >= 1).
Proof.
  simpl. split; [left; reflexivity|]. intros H. apply H. reflexivity.
Qed.

Section Stages.

Variable intersects : Geometry -> Geometry -> bool.

(** C5 (amended): after the bounding-box and zero-count filters, the
    geometry of every remaining record intersects the fixed rectangle
    (south 51.2, north 52.3, west -0.2, east 1.5) and its KSI count is not
    0, which makes it at least 1 whenever it is not negative. *)
Theorem spatial_filter_invariant (gdf : GeoDataFrame) (r : Row) :
  In r (rows (filter_nonzero (filter_bbox intersects gdf))) ->
  intersects (geometry r)
    (box (- (2 # 10)) (512 # 10) (15 # 10) (523 # 10)) = true
  /\ KSI_Count r <> 0
  /\ (0 <= KSI_Count r -> 1 <= KSI_Count r).
Proof.
  rewrite filter_nonzero_select, filter_bbox_select, !select_In.
  intros [[_ Hbox] Hk]. apply negb_true_iff, Z.eqb_neq in Hk.
  split; [exact Hbox|]. split; [exact Hk | lia].
Qed.

(** *** The filters commute *)







End Stages.

Lemma spatial_filter_invariant_witness :
  let r := {| geometry := LineString [(5 # 10, 515 # 10); (6 # 10, 516 # 10)];
              geometry_type := "LineString";
              Road_Number := "A12"; speed_limit := 30; KSI_Count := 2 |} in
  In r (rows (filter_nonzero (filter_bbox Sample.intersects (frame_of [r]))))
  /\ Sample.intersects (geometry r)
       (box (- (2 # 10)) (512 # 10) (15 # 10) (523 # 10)) = true
  /\ KSI_Count r <> 0
  /\ (0 <= KSI_Count r -> 1 <= KSI_Count r).
Proof.
  intros r.
  assert (H : In r (rows (filter_nonzero (filter_bbox Sample.intersects (frame_of [r]))))).
  { left; reflexivity. }
  split; [exact H|].
  exact (spatial_filter_invariant Sample.intersects (frame_of [r]) r H).
Defined.


(** ** Step 6: the smoother *)

Lemma set_geometry_same (r : Row) : set_geometry (geometry r) r = r.
Proof. destruct r; reflexivity. Qed.

Lemma linspace_length (a b : Q) (n : Z) (u : list Q) :
  linspace a b n = Ok u -> Z.of_nat (List.length u) = n.
Proof.
  unfold linspace. destruct (n <? 0) eqn:Hn; [discriminate|].
  intros H. injection H as <-. rewrite length_map, length_seq.
  apply Z.ltb_ge in Hn. lia.
Qed.

Lemma new_LineString_ok (cs : list coord) :
  List.length cs <> 1%nat -> new_LineString cs = Ok (LineString cs).
Proof. destruct cs as [|c [|d t]]; simpl; intros H; congruence. Qed.

Lemma new_LineString_inv (cs : list coord) (g : Geometry) :
  new_LineString cs = Ok g -> g = LineString cs.
Proof. destruct cs as [|c [|d t]]; simpl; intros H; congruence. Qed.

Section Smoother.

Variable Tck : Type.
Variable splprep : list (list Q) -> Q -> py (Tck * list Q).
Variable splev : list Q -> Tck -> py (list (list Q)).

Lemma smooth_rows (gdf : GeoDataFrame) :
  rows (smooth splprep splev gdf)
  = map (fun r => set_geometry (smooth_geometry splprep splev (geometry r) 0%Q 500) r)
        (rows gdf).
Proof.
  unfold smooth, empty. destruct (rows gdf) eqn:Hr; simpl; [exact Hr | reflexivity].
Qed.

Lemma smooth_geometry_short (cs : list coord) (s : Q) (n : Z) :
  (List.length cs <= 2)%nat ->
  smooth_geometry splprep splev (LineString cs) s n = LineString cs.
Proof.
  intros H. unfold smooth_geometry, smooth_geometry_try. simpl.
  destruct (2 <? Z.of_nat (List.length cs)) eqn:Hlt; [|reflexivity].
  apply Z.ltb_lt in Hlt. lia.
Qed.

Lemma smooth_geometry_other (g : Geometry) (s : Q) (n : Z) :
  geom_type g <> "LineString" -> smooth_geometry splprep splev g s n = g.
Proof.
  intros H. unfold smooth_geometry, smooth_geometry_try.
  destruct (geom_type g =? "LineString")%string eqn:He; [|reflexivity].
  apply String.eqb_eq in He. contradiction.
Qed.

Lemma smooth_geometry_try_long (cs : list coord) (s : Q) (n : Z) :
  (2 < List.length cs)%nat ->
  smooth_geometry_try splprep splev (LineString cs) s n
  = (' (tck, u) <- splprep [map fst cs; map snd cs] s ;;
     unew <- linspace 0%Q 1%Q n ;;
     out <- splev unew tck ;;
     new_LineString (combine (nth 0 out []) (nth 1 out [])))%py.
Proof.
  intros H. unfold smooth_geometry_try. simpl.
  destruct (2 <? Z.of_nat (List.length cs)) eqn:Hlt; [reflexivity|].
  apply Z.ltb_ge in Hlt. lia.
Qed.

Lemma splev_shape_2 (x y : list Q) (s : Q) (tck : Tck) (u unew : list Q)
    (out : list (list Q)) :
  splev_shape splprep splev -> splprep [x; y] s = Ok (tck, u) -> splev unew tck = Ok out ->
  List.length (combine (nth 0 out []) (nth 1 out [])) = List.length unew.
Proof.
  intros Hshape Hfit Hev. destruct (Hshape _ _ _ _ _ _ Hfit Hev) as [Hlen Hall].
  destruct out as [|a [|b [|c t]]]; simpl in Hlen; try discriminate.
  inversion Hall as [|? ? Ha Hall']. inversion Hall' as [|? ? Hb _]. subst.
  simpl. rewrite length_combine, Ha, Hb. apply Nat.min_id.
Qed.

Lemma smooth_geometry_try_count (cs : list coord) (s : Q) (n : Z) (g : Geometry) :
  splev_shape splprep splev -> (2 < List.length cs)%nat ->
  smooth_geometry_try splprep splev (LineString cs) s n = Ok g ->
  exists cs', g = LineString cs' /\ Z.of_nat (List.length cs') = n.
Proof.
  intros Hshape Hlong. rewrite smooth_geometry_try_long by exact Hlong.
  destruct (splprep [map fst cs; map snd cs] s) as [[tck u]|e] eqn:Hfit; simpl;
    [|discriminate].
  destruct (linspace 0%Q 1%Q n) as [unew|e] eqn:Hlin; simpl; [|discriminate].
  destruct (splev unew tck) as [out|e] eqn:Hev; simpl; [|discriminate].
  intros Hnew. apply new_LineString_inv in Hnew. eexists. split; [exact Hnew|].
  pose proof (splev_shape_2 Hshape Hfit Hev) as E. unfold coord in *.
  rewrite E. eapply linspace_length; eassumption.
Qed.

Lemma smooth_geometry_500 (cs : list coord) (tck : Tck) (u unew : list Q)
    (out : list (list Q)) :
  splev_shape splprep splev -> (2 < List.length cs)%nat ->
  splprep [map fst cs; map snd cs] 0%Q = Ok (tck, u) ->
  linspace 0%Q 1%Q 500 = Ok unew ->
  splev unew tck = Ok out ->
  smooth_geometry_try splprep splev (LineString cs) 0%Q 500
  = Ok (LineString (combine (nth 0 out []) (nth 1 out []))).
Proof.
  intros Hshape Hlong Hfit Hlin Hev. rewrite smooth_geometry_try_long by exact Hlong.
  rewrite Hfit. cbn [Py.bind]. rewrite Hlin. cbn [Py.bind]. rewrite Hev. cbn [Py.bind].
  apply new_LineString_ok. pose proof (splev_shape_2 Hshape Hfit Hev) as E.
  unfold coord in *. rewrite E. apply linspace_length in Hlin. lia.
Qed.

End Smoother.

Lemma sample_splev_shape : splev_shape Sample.splprep Sample.splev.
Proof.
  intros x s [[ax ay] [bx by_]] u unew out Hfit Hev.
  unfold Sample.splev in Hev. injection Hev as <-.
  destruct x as [|x0 [|x1 [|x2 t]]]; simpl in Hfit; try discriminate.
  split; [reflexivity|]. repeat constructor; apply length_map.
Qed.

Section SmootherClaims.

Variable Tck : Type.
Variable splprep : list (list Q) -> Q -> py (Tck * list Q).
Variable splev : list Q -> Tck -> py (list (list Q)).

(** C1: a line of more than 2 vertices whose smoothing raises nothing
    comes back with exactly [num_points] vertices, and at the 500 points the
    script asks for the success of the fit ([splprep]) and of its evaluation
    ([splev]) is enough; a line of 2 vertices or fewer comes back as it is,
    vertex for vertex. Stated of the function and of the records of the
    smoothing stage. *)
Theorem smoother_vertex_count :
  splev_shape splprep splev ->
  (forall (cs : list coord) (s : Q) (n : Z),
      ((2 < List.length cs)%nat ->
       forall g, smooth_geometry_try splprep splev (LineString cs) s n = Ok g ->
                 smooth_geometry splprep splev (LineString cs) s n = g
                 /\ exists cs', g = LineString cs' /\ Z.of_nat (List.length cs') = n)
      /\ ((List.length cs <= 2)%nat ->
          smooth_geometry splprep splev (LineString cs) s n = LineString cs))
  /\ (forall (gdf : GeoDataFrame) (i : nat) (r : Row) (cs : list coord),
         nth_error (rows gdf) i = Some r -> geometry r = LineString cs ->
         ((2 < List.length cs)%nat ->
          forall tck u unew out,
            splprep [map fst cs; map snd cs] 0%Q = Ok (tck, u) ->
            linspace 0%Q 1%Q 500 = Ok unew ->
            splev unew tck = Ok out ->
            exists cs',
              nth_error (rows (smooth splprep splev gdf)) i
              = Some (set_geometry (LineString cs') r)
              /\ List.length cs' = 500%nat)
         /\ ((List.length cs <= 2)%nat ->
             nth_error (rows (smooth splprep splev gdf)) i = Some r)).
Proof.
  intros Hshape. split.
  - intros cs s n. split.
    + intros Hlong g Htry. split.
      * unfold smooth_geometry. rewrite Htry. reflexivity.
      * eapply smooth_geometry_try_count; eassumption.
    + apply smooth_geometry_short.
  - intros gdf i r cs Hi Hg. rewrite smooth_rows, nth_error_map, Hi. simpl.
    rewrite Hg. split.
    + intros Hlong tck u unew out Hfit Hlin Hev.
      exists (combine (nth 0 out []) (nth 1 out [])). split.
      * unfold smooth_geometry.
        rewrite (@smooth_geometry_500 Tck splprep splev cs tck u unew out
                   Hshape Hlong Hfit Hlin Hev). reflexivity.
      * pose proof (@splev_shape_2 _ _ _ _ _ _ _ _ _ _ Hshape Hfit Hev) as E. unfold coord in *.
        rewrite E. apply linspace_length in Hlin. lia.
    + intros Hshort. rewrite smooth_geometry_short by exact Hshort.
      rewrite <- Hg. rewrite set_geometry_same. reflexivity.
Qed.

(** C4: the smoother never removes a record: the stage returns as many
    records as it received, each at its place with its attributes, and a
    record whose smoothing raises (in the fit or anywhere else in the [try])
    keeps its geometry. *)
Theorem smoother_keeps_every_record (gdf : GeoDataFrame) :
  List.length (rows (smooth splprep splev gdf)) = List.length (rows gdf)
  /\ (forall (i : nat) (r : Row),
         nth_error (rows gdf) i = Some r ->
         (exists g, nth_error (rows (smooth splprep splev gdf)) i
                    = Some (set_geometry g r))
         /\ (raised (smooth_geometry_try splprep splev (geometry r) 0%Q 500) = true ->
             nth_error (rows (smooth splprep splev gdf)) i = Some r)
         /\ (forall cs, geometry r = LineString cs ->
                        raised (splprep [map fst cs; map snd cs] 0%Q) = true ->
                        nth_error (rows (smooth splprep splev gdf)) i = Some r)).
Proof.
  rewrite smooth_rows. split; [apply length_map|].
  intros i r Hi. rewrite nth_error_map, Hi. simpl.
  assert (Hraise : raised (smooth_geometry_try splprep splev (geometry r) 0%Q 500) = true ->
                   Some (set_geometry (smooth_geometry splprep splev (geometry r) 0%Q 500) r)
                   = Some r).
  { intros Hr. unfold smooth_geometry.
    destruct (smooth_geometry_try splprep splev (geometry r) 0%Q 500); [discriminate|].
    simpl. rewrite set_geometry_same. reflexivity. }
  split; [eexists; reflexivity|]. split; [exact Hraise|].
  intros cs Hg Hfit.
  destruct (Nat.le_gt_cases (List.length cs) 2) as [Hshort|Hlong].
  - rewrite Hg, smooth_geometry_short by exact Hshort.
    rewrite <- Hg, set_geometry_same. reflexivity.
  - apply Hraise. rewrite Hg, smooth_geometry_try_long by exact Hlong.
    destruct (splprep [map fst cs; map snd cs] 0%Q); [discriminate | reflexivity].
Qed.

End SmootherClaims.

Lemma smoother_vertex_count_witness :
  let cs := [Sample.pt 0 0; Sample.pt 1 2; Sample.pt 2 0; Sample.pt 3 2; Sample.pt 4 0] in
  let short := [Sample.pt 0 0; Sample.pt 1 2] in
  let r := {| geometry := LineString cs; geometry_type := "LineString";
              Road_Number := "A12"; speed_limit := 30; KSI_Count := 3 |} in
  let r2 := {| geometry := LineString short; geometry_type := "LineString";
               Road_Number := "A12"; speed_limit := 30; KSI_Count := 3 |} in
  (2 < List.length cs)%nat
  /\ (List.length short <= 2)%nat
  /\ (exists cs', Sample.smooth_geometry (LineString cs) 0%Q 7 = LineString cs'
                  /\ Z.of_nat (List.length cs') = 7)
  /\ Sample.smooth_geometry (LineString short) 0%Q 7 = LineString short
  /\ (exists cs',
         nth_error (rows (Sample.smooth (frame_of [r; r2]))) 0
         = Some (set_geometry (LineString cs') r)
         /\ List.length cs' = 500%nat)
  /\ nth_error (rows (Sample.smooth (frame_of [r; r2]))) 1 = Some r2.
Proof.
  intros cs short r r2.
  assert (Hlong : (2 < List.length cs)%nat) by (simpl; lia).
  assert (Hshort : (List.length short <= 2)%nat) by (simpl; lia).
  destruct (smoother_vertex_count sample_splev_shape) as [Hfun Hrec].
  split; [exact Hlong|]. split; [exact Hshort|]. split; [|split; [|split]].
  - destruct (proj1 (Hfun cs 0%Q 7) Hlong _ eq_refl) as [E [cs' [Hg Hn]]].
    exists cs'. split; [rewrite <- Hg; exact E | exact Hn].
  - exact (proj2 (Hfun short 0%Q 7) Hshort).
  - destruct (Hrec (frame_of [r; r2]) 0%nat r cs eq_refl eq_refl) as [H _].
    eapply H; [exact Hlong | reflexivity | reflexivity | reflexivity].
  - destruct (Hrec (frame_of [r; r2]) 1%nat r2 short eq_refl eq_refl) as [_ H].
    exact (H Hshort).
Defined.

Lemma smoother_keeps_every_record_witness :
  let cs := [Sample.pt 0 0; Sample.pt 1 2; Sample.pt 2 0] in
  let r := {| geometry := LineString cs; geometry_type := "LineString";
              Road_Number := "A12"; speed_limit := 30; KSI_Count := 3 |} in
  let r2 := {| geometry := LineString cs; geometry_type := "LineString";
               Road_Number := "B1"; speed_limit := 40; KSI_Count := 9 |} in
  raised (Sample.splprep [map fst cs; map snd cs] 0%Q) = true
  /\ raised (smooth_geometry_try Sample.splprep Sample.splev (geometry r2) 0%Q 500) = true
  /\ List.length (rows (Sample.smooth (frame_of [r; r2]))) = 2%nat
  /\ nth_error (rows (Sample.smooth (frame_of [r; r2]))) 0 = Some r
  /\ nth_error (rows (Sample.smooth (frame_of [r; r2]))) 1 = Some r2.
Proof.
  intros cs r r2. split; [reflexivity|]. split; [reflexivity|].
  destruct (smoother_keeps_every_record Sample.splprep Sample.splev (frame_of [r; r2]))
    as [Hlen H].
  split; [exact Hlen|]. split.
  - destruct (H 0%nat r eq_refl) as [_ [_ Hfit]]. exact (Hfit cs eq_refl eq_refl).
  - destruct (H 1%nat r2 eq_refl) as [_ [Htry _]]. exact (Htry eq_refl).
Defined.

(** ** Exceptions through [Series.apply] *)

Lemma apply_Forall2 {A B} (f : A -> py B) (l : list A) (l' : list B) :
  Py.apply f l = Ok l' -> Forall2 (fun a b => f a = Ok b) l l'.
Proof.
  revert l'. induction l as [|a t IH]; simpl; intros l' H.
  - injection H as <-. constructor.
  - destruct (f a) as [b|e] eqn:Hf; [|discriminate].
    destruct (Py.apply f t) as [bs|e]; [|discriminate].
    injection H as <-. constructor; [exact Hf | apply IH; reflexivity].
Qed.

Lemma apply_length {A B} (f : A -> py B) (l : list A) (l' : list B) :
  Py.apply f l = Ok l' -> List.length l' = List.length l.
Proof.
  intros H. apply apply_Forall2 in H. symmetry. eapply Forall2_length; eassumption.
Qed.

Lemma apply_raises {A B} (f : A -> py B) (l : list A) (a : A) :
  In a l -> raised (f a) = true -> raised (Py.apply f l) = true.
Proof.
  induction l as [|x t IH]; simpl; intros Hin Hr; [contradiction|].
  destruct (f x) as [b|e] eqn:Hf; [|reflexivity].
  destruct Hin as [->|Hin]; [rewrite Hf in Hr; discriminate|].
  specialize (IH Hin Hr). destruct (Py.apply f t); [discriminate | reflexivity].
Qed.

Lemma apply_succeeds {A B} (f : A -> py B) (l : list A) :
  Forall (fun a => raised (f a) = false) l -> exists l', Py.apply f l = Ok l'.
Proof.
  induction 1 as [|a t Ha _ [bs IH]]; simpl; [eexists; reflexivity|].
  destruct (f a) as [b|e]; [|discriminate]. rewrite IH. eexists; reflexivity.
Qed.

(** ** Step 2: the CRS test *)

Lemma fold_left_picks {A} (f : A -> A -> A) (l : list A) (a : A) :
  (forall x y, f x y = x \/ f x y = y) -> In (fold_left f l a) (a :: l).
Proof.
  intros Hf. revert a. induction l as [|b t IH]; intros a; simpl; [left; reflexivity|].
  destruct (IH (f a b)) as [H|H]; [|right; right; exact H].
  rewrite <- H. destruct (Hf a b) as [E|E]; rewrite E; simpl; auto.
Qed.

Lemma qmin_picks (x y : Q) : qmin x y = x \/ qmin x y = y.
Proof. unfold qmin. destruct (Qle_bool x y); auto. Qed.

Lemma qmax_picks (x y : Q) : qmax x y = x \/ qmax x y = y.
Proof. unfold qmax. destruct (Qle_bool x y); auto. Qed.

Lemma series_fold_picks (f : Q -> Q -> Q) (l : list (option Q)) :
  (forall x y, f x y = x \/ f x y = y) ->
  (exists v, In (Some v) l) ->
  exists v, series_fold f l = Some v /\ In (Some v) l.
Proof.
  intros Hf. unfold series_fold.
  assert (Hacc : forall l a, exists v,
             fold_left (fun acc x => match acc, x with
                                     | Some a, Some b => Some (f a b)
                                     | None, _ => x
                                     | _, None => acc
                                     end) l (Some a) = Some v
             /\ (v = a \/ In (Some v) l)).
  { clear l. induction l as [|x t IH]; intros a; simpl.
    - exists a. auto.
    - destruct x as [b|].
      + destruct (IH (f a b)) as [v [E [Hv|Hv]]]; exists v; split; auto.
        subst v. destruct (Hf a b) as [H|H]; rewrite H; auto.
      + destruct (IH a) as [v [E [Hv|Hv]]]; exists v; auto. }
  induction l as [|x t IH]; intros [v Hv]; simpl; [contradiction|].
  destruct x as [b|].
  - destruct (Hacc t b) as [w [E [Hw|Hw]]]; exists w; subst; auto.
  - destruct Hv as [Hv|Hv]; [discriminate|].
    destruct IH as [w [E Hw]]; [exists v; exact Hv|]. exists w. auto.
Qed.

Lemma bounds_pick (g : Geometry) (b : Q * Q * Q * Q) :
  bounds g = Some b ->
  In (minx b) (map fst (all_coords g)) /\ In (maxx b) (map fst (all_coords g))
  /\ In (miny b) (map snd (all_coords g)) /\ In (maxy b) (map snd (all_coords g)).
Proof.
  unfold bounds. destruct (all_coords g) as [|[x y] t]; [discriminate|].
  intros H. injection H as <-. simpl.
  repeat split;
    first [ apply (fold_left_picks qmin (map fst t) x qmin_picks)
          | apply (fold_left_picks qmax (map fst t) x qmax_picks)
          | apply (fold_left_picks qmin (map snd t) y qmin_picks)
          | apply (fold_left_picks qmax (map snd t) y qmax_picks) ].
Qed.

Lemma Qltb_lt (a b : Q) : (a < b)%Q -> Qltb a b = true.
Proof.
  intros H. unfold Qltb. destruct (Qle_bool b a) eqn:E; [|reflexivity].
  apply Qle_bool_iff in E. exfalso. exact (Qlt_not_le _ _ H E).
Qed.

Lemma bounds_nonempty (g : Geometry) :
  all_coords g <> [] -> exists b, bounds g = Some b.
Proof.
  unfold bounds. destruct (all_coords g) as [|[x y] t]; [congruence|].
  intros _. eexists; reflexivity.
Qed.

Lemma series_bound (gdf : GeoDataFrame) (agg : Q -> Q -> Q) (proj : Q * Q * Q * Q -> Q)
    (P : Q -> Prop) :
  (forall x y, agg x y = x \/ agg x y = y) ->
  (exists r, In r (rows gdf) /\ all_coords (geometry r) <> []) ->
  (forall r b, In r (rows gdf) -> bounds (geometry r) = Some b -> P (proj b)) ->
  exists v, series_fold agg (bounds_column gdf proj) = Some v /\ P v.
Proof.
  intros Hagg [r [Hr Hne]] HP.
  destruct (bounds_nonempty _ Hne) as [b Hb].
  destruct (series_fold_picks agg (bounds_column gdf proj) Hagg) as [v [Hv Hin]].
  - exists (proj b). unfold bounds_column. apply in_map_iff. exists r.
    rewrite Hb. split; [reflexivity | exact Hr].
  - exists v. split; [exact Hv|].
    unfold bounds_column in Hin. apply in_map_iff in Hin. destruct Hin as [r' [E Hr']].
    destruct (bounds (geometry r')) as [b'|] eqn:Hb'; [|discriminate].
    injection E as <-. eapply HP; eassumption.
Qed.

Lemma within_range_looks_geographic (gdf : GeoDataFrame) :
  within_geographic_range gdf -> looks_geographic gdf = true.
Proof.
  intros [Hex Hall]. unfold looks_geographic.
  assert (Hx : forall r b v, In r (rows gdf) -> bounds (geometry r) = Some b ->
                             In v (map fst (all_coords (geometry r))) ->
                             (- inject_Z 180 < v /\ v < inject_Z 180)%Q).
  { intros r b v Hr _ Hv. apply in_map_iff in Hv. destruct Hv as [[x y] [E Hin]].
    simpl in E. subst v. destruct (Hall r x y Hr Hin) as [H1 [H2 _]]. split; assumption. }
  assert (Hy : forall r b v, In r (rows gdf) -> bounds (geometry r) = Some b ->
                             In v (map snd (all_coords (geometry r))) ->
                             (- inject_Z 90 < v /\ v < inject_Z 90)%Q).
  { intros r b v Hr _ Hv. apply in_map_iff in Hv. destruct Hv as [[x y] [E Hin]].
    simpl in E. subst v. destruct (Hall r x y Hr Hin) as [_ [_ H]]. exact H. }
  destruct (series_bound gdf qmin minx (fun v => (- inject_Z 180 < v)%Q) qmin_picks Hex)
    as [v1 [E1 H1]].
  { intros r b Hr Hb. eapply Hx; [exact Hr | exact Hb | apply (bounds_pick _ Hb)]. }
  destruct (series_bound gdf qmax maxx (fun v => (v < inject_Z 180)%Q) qmax_picks Hex)
    as [v2 [E2 H2]].
  { intros r b Hr Hb. eapply Hx; [exact Hr | exact Hb | apply (bounds_pick _ Hb)]. }
  destruct (series_bound gdf qmin miny (fun v => (- inject_Z 90 < v)%Q) qmin_picks Hex)
    as [v3 [E3 H3]].
  { intros r b Hr Hb. eapply Hy; [exact Hr | exact Hb | apply (bounds_pick _ Hb)]. }
  destruct (series_bound gdf qmax maxy (fun v => (v < inject_Z 90)%Q) qmax_picks Hex)
    as [v4 [E4 H4]].
  { intros r b Hr Hb. eapply Hy; [exact Hr | exact Hb | apply (bounds_pick _ Hb)]. }
  unfold series_min, series_max. rewrite E1, E2, E3, E4. unfold gt, lt.
  rewrite !Qltb_lt by assumption. reflexivity.
Qed.

Lemma within_range_rows (gdf gdf' : GeoDataFrame) :
  rows gdf' = rows gdf -> within_geographic_range gdf -> within_geographic_range gdf'.
Proof. unfold within_geographic_range. intros ->. exact (fun H => H). Qed.

(** ** Step 1: the loader *)

Lemma position_existsb (name : string) (cols : list string) :
  existsb (String.eqb name) cols = true
  <-> exists i, position String.eqb name cols = Some i.
Proof.
  induction cols as [|c t IH]; simpl.
  - split; [discriminate | intros [i H]; discriminate].
  - rewrite (String.eqb_sym name c). destruct (c =? name)%string; simpl.
    + split; [intros _; eexists; reflexivity | reflexivity].
    + rewrite IH. split; intros [i H].
      * rewrite H. eexists; reflexivity.
      * destruct (position String.eqb name t); [eexists; reflexivity | discriminate].
Qed.

Lemma getitem_length (df : DataFrame) (name : string) (col : list cell) :
  getitem df name = Ok col -> List.length col = List.length (values df).
Proof.
  unfold getitem. destruct (position String.eqb name (columns df)); [|discriminate].
  intros H. injection H as <-. apply length_map.
Qed.

Lemma getitem_position (df : DataFrame) (name : string) (i : nat) :
  position String.eqb name (columns df) = Some i ->
  getitem df name = Ok (map (fun row => nth i row NaN) (values df)).
Proof. unfold getitem. intros ->. reflexivity. Qed.

Section Loader.

Variable wkt_loads : string -> py Geometry.
Variable astype_int : cell -> py Z.
Variable astype_str : cell -> string.
Variable str_strip : string -> string.

Lemma load_data_frame_inv (df : DataFrame) (shown : list st_event) (gdf : GeoDataFrame) :
  load_data_frame wkt_loads astype_int astype_str str_strip df = Ok (shown, gdf) ->
  (existsb (String.eqb "geometry") (columns df) = false
   /\ (exists m, shown = [st_error m]) /\ gdf = GeoDataFrame_new)
  \/ exists col geoms,
      getitem df "geometry" = Ok col
      /\ Py.apply (wkt_loads_cell wkt_loads) col = Ok geoms
      /\ ((line_rows (values df) geoms = []
           /\ (exists m, shown = [st_error m]) /\ gdf = GeoDataFrame_new)
          \/ (line_rows (values df) geoms <> [] /\ shown = []
              /\ exists road speed ksi,
                  List.length road = List.length (line_rows (values df) geoms)
                  /\ List.length speed = List.length (line_rows (values df) geoms)
                  /\ List.length ksi = List.length (line_rows (values df) geoms)
                  /\ gdf = {| crs := None;
                              rows := map make_row
                                        (combine (combine (combine
                                           (line_rows (values df) geoms) road) speed) ksi) |})).
Proof.
  unfold load_data_frame.
  destruct (existsb (String.eqb "geometry") (columns df)) eqn:Hcol; simpl.
  2:{ intros H. injection H as <- <-. left. repeat split. eexists; reflexivity. }
  destruct (getitem df "geometry") as [col|e] eqn:Hget; simpl; [|discriminate].
  destruct (Py.apply (wkt_loads_cell wkt_loads) col) as [geoms|e] eqn:Hgeo; simpl;
    [|discriminate].
  rewrite mask_rows_map. fold (line_rows (values df) geoms).
  intros H. right. exists col, geoms. split; [reflexivity|]. split; [exact Hgeo|].
  destruct (line_rows (values df) geoms) as [|r0 df2] eqn:Hrows.
  - injection H as <- <-. left. repeat split. eexists; reflexivity.
  - right. split; [discriminate|].
    destruct (getitem _ "Road Number") as [road|e] eqn:Hroad; simpl in H; [|discriminate].
    destruct (getitem _ "speed_limit") as [speed|e] eqn:Hspeed; simpl in H; [|discriminate].
    destruct (Py.apply astype_int (map (fillna (IntCell 0)) speed)) as [speed'|e] eqn:Hs;
      simpl in H; [|discriminate].
    destruct (getitem _ "KSI Count") as [ksi|e] eqn:Hksi; simpl in H; [|discriminate].
    destruct (Py.apply astype_int (map (fillna (IntCell 0)) ksi)) as [ksi'|e] eqn:Hk;
      simpl in H; [|discriminate].
    injection H as <- <-. split; [reflexivity|].
    apply getitem_length in Hroad, Hspeed, Hksi. simpl in Hroad, Hspeed, Hksi.
    apply apply_length in Hs, Hk. rewrite length_map in *.
    exists (map (fun c => str_strip (astype_str (fillna (StrCell "Unknown") c))) road),
      speed', ksi'.
    repeat split; try reflexivity; simpl; rewrite ?length_map;
      [exact Hroad | exact (eq_trans Hs Hspeed) | exact (eq_trans Hk Hksi)].
Qed.

End Loader.

Lemma make_row_geometries (df2 : list typed_row) (road : list string) (speed ksi : list Z) :
  List.length road = List.length df2 ->
  List.length speed = List.length df2 ->
  List.length ksi = List.length df2 ->
  map geometry (map make_row (combine (combine (combine df2 road) speed) ksi))
  = map (fun r => fst (snd r)) df2.
Proof.
  revert road speed ksi.
  induction df2 as [|r t IH]; intros [|a road] [|b speed] [|c ksi] Hr Hs Hk;
    simpl in *; try discriminate; [reflexivity|].
  f_equal. apply IH; congruence.
Qed.

Lemma line_rows_geometries (vals : list (list cell)) (geoms : list Geometry) :
  List.length vals = List.length geoms ->
  map (fun r => fst (snd r)) (line_rows vals geoms) = filter is_LineString geoms.
Proof.
  unfold line_rows. revert geoms.
  induction vals as [|v t IH]; intros [|g gs] H; simpl in *; try discriminate;
    [reflexivity|].
  unfold is_LineString_row at 1. unfold is_LineString at 1. simpl.
  destruct (geom_type g =? "LineString")%string; simpl; rewrite IH by congruence;
    reflexivity.
Qed.

Lemma line_rows_In (vals : list (list cell)) (geoms : list Geometry) (r : typed_row) :
  In r (line_rows vals geoms) ->
  In (fst r, fst (snd r)) (combine vals geoms) /\ is_LineString (fst (snd r)) = true.
Proof.
  unfold line_rows. rewrite filter_In. intros [Hin Hls]. revert geoms Hin.
  induction vals as [|v t IH]; intros [|g gs] Hin; simpl in *; try contradiction.
  destruct Hin as [<-|Hin].
  - split; [left; reflexivity | exact Hls].
  - destruct (IH gs Hin) as [H1 H2]. split; [right; exact H1 | exact H2].
Qed.

Lemma is_LineString_inv (g : Geometry) :
  is_LineString g = true -> exists cs, g = LineString cs.
Proof.
  destruct g; unfold is_LineString; simpl; try discriminate.
  intros _. eexists; reflexivity.
Qed.

Lemma apply_In {A B} (f : A -> py B) (l : list A) (l' : list B) (b : B) :
  Py.apply f l = Ok l' -> In b l' -> exists a, In a l /\ f a = Ok b.
Proof.
  intros H. apply apply_Forall2 in H.
  induction H as [|a b' t t' Hab _ IH]; simpl; [contradiction|].
  intros [<-|Hin].
  - exists a. auto.
  - destruct (IH Hin) as [a' [Ha' Hf]]. exists a'. auto.
Qed.

Section LoaderFacts.

Variable wkt_loads : string -> py Geometry.
Variable UploadedFile : Type.
Variable read_csv : UploadedFile -> py DataFrame.
Variable astype_int : cell -> py Z.
Variable astype_str : cell -> string.
Variable str_strip : string -> string.

Lemma load_data_read (file : UploadedFile) (df : DataFrame) :
  read_csv file = Ok df ->
  load_data wkt_loads read_csv astype_int astype_str str_strip file
  = try_except (load_data_frame wkt_loads astype_int astype_str str_strip df)
      (fun e => ([st_error ("Error loading data: " ++ e)], GeoDataFrame_new)).
Proof. intros H. unfold load_data, load_data_try. rewrite H. reflexivity. Qed.

Lemma load_data_inv (file : UploadedFile) :
  (exists m, load_data wkt_loads read_csv astype_int astype_str str_strip file
             = ([st_error m], GeoDataFrame_new))
  \/ exists df col geoms road speed ksi,
      read_csv file = Ok df
      /\ getitem df "geometry" = Ok col
      /\ Py.apply (wkt_loads_cell wkt_loads) col = Ok geoms
      /\ line_rows (values df) geoms <> []
      /\ List.length road = List.length (line_rows (values df) geoms)
      /\ List.length speed = List.length (line_rows (values df) geoms)
      /\ List.length ksi = List.length (line_rows (values df) geoms)
      /\ load_data wkt_loads read_csv astype_int astype_str str_strip file
         = ([], {| crs := None;
                   rows := map make_row
                             (combine (combine (combine
                                (line_rows (values df) geoms) road) speed) ksi) |}).
Proof.
  destruct (read_csv file) as [df|e] eqn:Hread.
  2:{ left. unfold load_data, load_data_try. rewrite Hread. eexists; reflexivity. }
  rewrite (load_data_read Hread).
  destruct (load_data_frame wkt_loads astype_int astype_str str_strip df)
    as [[shown gdf]|e] eqn:H; simpl.
  2:{ left. eexists; reflexivity. }
  apply load_data_frame_inv in H.
  destruct H as [[_ [[m ->] ->]]|[col [geoms [Hget [Hgeo H]]]]].
  { left. eexists; reflexivity. }
  destruct H as [[_ [[m ->] ->]]|[Hne [-> [road [speed [ksi [Hr [Hs [Hk ->]]]]]]]]].
  { left. eexists; reflexivity. }
  right. exists df, col, geoms, road, speed, ksi. repeat split; assumption.
Qed.

Lemma load_data_crs (file : UploadedFile) :
  crs (snd (load_data wkt_loads read_csv astype_int astype_str str_strip file)) = None.
Proof.
  destruct (load_data_inv file)
    as [[m ->]|[? [? [? [? [? [? [_ [_ [_ [_ [_ [_ [_ ->]]]]]]]]]]]]]]; reflexivity.
Qed.

Lemma load_data_shown (file : UploadedFile) (ev : st_event) :
  In ev (fst (load_data wkt_loads read_csv astype_int astype_str str_strip file)) ->
  exists m, ev = st_error m.
Proof.
  destruct (load_data_inv file)
    as [[m ->]|[? [? [? [? [? [? [_ [_ [_ [_ [_ [_ [_ ->]]]]]]]]]]]]]];
    simpl; [|contradiction].
  intros [<-|[]]. eexists; reflexivity.
Qed.

Lemma load_data_geometries (file : UploadedFile) (df : DataFrame) (col : list cell)
    (geoms : list Geometry) :
  read_csv file = Ok df ->
  getitem df "geometry" = Ok col ->
  Py.apply (wkt_loads_cell wkt_loads) col = Ok geoms ->
  rows (snd (load_data wkt_loads read_csv astype_int astype_str str_strip file)) = []
  \/ map geometry
       (rows (snd (load_data wkt_loads read_csv astype_int astype_str str_strip file)))
     = filter is_LineString geoms.
Proof.
  intros Hread Hget Hgeo.
  destruct (load_data_inv file)
    as [[m ->]|[df' [col' [geoms' [road [speed [ksi
          [Hread' [Hget' [Hgeo' [_ [Hr [Hs [Hk ->]]]]]]]]]]]]]].
  { left. reflexivity. }
  right. simpl. rewrite Hread in Hread'. injection Hread' as <-.
  rewrite Hget in Hget'. injection Hget' as <-.
  rewrite Hgeo in Hgeo'. injection Hgeo' as <-.
  rewrite make_row_geometries by assumption.
  apply line_rows_geometries.
  apply getitem_length in Hget. apply apply_length in Hgeo. congruence.
Qed.

Lemma load_data_row_is_line (file : UploadedFile) (r : Row) :
  In r (rows (snd (load_data wkt_loads read_csv astype_int astype_str str_strip file))) ->
  is_LineString (geometry r) = true /\ exists s, wkt_loads s = Ok (geometry r).
Proof.
  intros Hin.
  destruct (load_data_inv file)
    as [[m E]|[df [col [geoms [road [speed [ksi
          [Hread [Hget [Hgeo [_ [Hr [Hs [Hk E]]]]]]]]]]]]]].
  { rewrite E in Hin. contradiction. }
  destruct (load_data_geometries Hread Hget Hgeo) as [H|H].
  { rewrite H in Hin. contradiction. }
  apply (in_map geometry) in Hin. rewrite H in Hin. apply filter_In in Hin.
  destruct Hin as [Hin Hls]. split; [exact Hls|].
  destruct (apply_In _ _ _ Hgeo Hin) as [c [_ Hc]].
  destruct c; simpl in Hc; try discriminate. eexists; exact Hc.
Qed.

End LoaderFacts.

Section LoaderOutcome.

Variable wkt_loads : string -> py Geometry.
Variable UploadedFile : Type.
Variable read_csv : UploadedFile -> py DataFrame.
Variable astype_int : cell -> py Z.
Variable astype_str : cell -> string.
Variable str_strip : string -> string.

Lemma load_data_aborts (file : UploadedFile) (df : DataFrame) (ig : nat)
    (cells : list cell) :
  read_csv file = Ok df ->
  position String.eqb "geometry" (columns df) = Some ig ->
  In cells (values df) ->
  raised (wkt_loads_cell wkt_loads (nth ig cells NaN)) = true ->
  exists e, load_data wkt_loads read_csv astype_int astype_str str_strip file
            = ([st_error ("Error loading data: " ++ e)], GeoDataFrame_new).
Proof.
  intros Hread Hpos Hin Hraise. erewrite load_data_read by exact Hread.
  unfold load_data_frame.
  assert (Hcol : existsb (String.eqb "geometry") (columns df) = true).
  { apply position_existsb. eexists; exact Hpos. }
  rewrite Hcol, (getitem_position _ _ Hpos). cbn [negb Py.bind].
  pose proof (apply_raises (wkt_loads_cell wkt_loads)
                (map (fun row => nth ig row NaN) (values df)) (nth ig cells NaN)) as H.
  destruct (Py.apply (wkt_loads_cell wkt_loads)
              (map (fun row => nth ig row NaN) (values df))) as [geoms|e].
  - assert (false = true); [|discriminate].
    apply H; [|exact Hraise]. apply in_map_iff. exists cells. auto.
  - exists e. reflexivity.
Qed.

Lemma line_rows_convertible (df : DataFrame) (geoms : list Geometry) (i : nat) :
  (forall cells g, In (cells, g) (combine (values df) geoms) -> is_LineString g = true ->
                   raised (astype_int (fillna (IntCell 0) (nth i cells NaN))) = false) ->
  exists l, Py.apply astype_int
              (map (fillna (IntCell 0))
                 (map (fun row => nth i row NaN)
                    (map fst (line_rows (values df) geoms)))) = Ok l.
Proof.
  intros H. apply apply_succeeds. apply Forall_forall. intros c Hc.
  apply in_map_iff in Hc. destruct Hc as [c1 [<- Hc]].
  apply in_map_iff in Hc. destruct Hc as [row [<- Hc]].
  apply in_map_iff in Hc. destruct Hc as [r [<- Hc]].
  apply line_rows_In in Hc. destruct Hc as [Hin Hls]. eapply H; eassumption.
Qed.

Lemma load_data_succeeds (file : UploadedFile) (df : DataFrame) (ig ir isp ik : nat)
    (geoms : list Geometry) :
  read_csv file = Ok df ->
  position String.eqb "geometry" (columns df) = Some ig ->
  Py.apply (wkt_loads_cell wkt_loads) (map (fun row => nth ig row NaN) (values df))
  = Ok geoms ->
  position String.eqb "Road Number" (columns df) = Some ir ->
  position String.eqb "speed_limit" (columns df) = Some isp ->
  position String.eqb "KSI Count" (columns df) = Some ik ->
  (forall cells g, In (cells, g) (combine (values df) geoms) -> is_LineString g = true ->
                   raised (astype_int (fillna (IntCell 0) (nth isp cells NaN))) = false
                   /\ raised (astype_int (fillna (IntCell 0) (nth ik cells NaN))) = false) ->
  map geometry (rows (snd (load_data wkt_loads read_csv astype_int astype_str str_strip file)))
  = filter is_LineString geoms
  /\ (filter is_LineString geoms <> [] ->
      fst (load_data wkt_loads read_csv astype_int astype_str str_strip file) = []).
Proof.
  intros Hread Hg Hgeo Hr Hs Hk Hconv.
  assert (Hlen : List.length (values df) = List.length geoms).
  { apply apply_length in Hgeo. rewrite length_map in Hgeo. congruence. }
  rewrite <- (line_rows_geometries _ _ Hlen).
  destruct (line_rows_convertible df geoms isp) as [speed Hspeed].
  { intros cells g Hin Hls. apply (Hconv cells g Hin Hls). }
  destruct (line_rows_convertible df geoms ik) as [ksi Hksi].
  { intros cells g Hin Hls. apply (Hconv cells g Hin Hls). }
  erewrite load_data_read by exact Hread. unfold load_data_frame.
  assert (Hcol : existsb (String.eqb "geometry") (columns df) = true).
  { apply position_existsb. eexists; exact Hg. }
  rewrite Hcol, (getitem_position _ _ Hg). cbn [negb Py.bind]. rewrite Hgeo.
  cbn [Py.bind]. rewrite mask_rows_map. fold (line_rows (values df) geoms).
  destruct (line_rows (values df) geoms) as [|r0 df2] eqn:Hrows.
  { simpl. split; [reflexivity | congruence]. }
  rewrite (getitem_position {| columns := columns df; values := map fst (r0 :: df2) |}
             "Road Number" Hr).
  rewrite (getitem_position {| columns := columns df; values := map fst (r0 :: df2) |}
             "speed_limit" Hs).
  rewrite (getitem_position {| columns := columns df; values := map fst (r0 :: df2) |}
             "KSI Count" Hk).
  cbn [Py.bind values]. rewrite Hspeed. cbn [Py.bind]. rewrite Hksi.
  cbn [Py.bind try_except snd fst rows]. split; [|reflexivity].
  apply apply_length in Hspeed, Hksi. rewrite !length_map in Hspeed, Hksi.
  apply make_row_geometries; rewrite ?length_map; first [reflexivity | assumption].
Qed.

End LoaderOutcome.

(** C2 (as stated) fails: [wkt.loads] is applied to the whole column inside
    the single [try] of [load_data], so one cell that does not parse ends
    the load with an empty frame, and the row that did parse is lost with
    it. *)
Lemma load_data_parse_failure_aborts_load :
  let df := {| columns := ["geometry"; "Road Number"; "speed_limit"; "KSI Count"];
               values := [[StrCell "LINESTRING (0 0, 1 1)"; StrCell "A12";
                           IntCell 30; IntCell 3];
                          [StrCell "not wkt"; StrCell "B1"; IntCell 40; IntCell 1]] |} in
  Sample.wkt_loads "LINESTRING (0 0, 1 1)" = Ok (LineString [(0, 0); (1, 1)]%Q)
  /\ raised (Sample.wkt_loads "not wkt") = true
  /\ Sample.load_data df
     = ([st_error "Error loading data: ParseException: Unknown type"], GeoDataFrame_new).
Proof. repeat split. Qed.

(** C9 (as stated) fails: line 64 keeps every shape typed "LineString", and
    the empty line is one, with no vertex at all. *)
Lemma load_data_keeps_empty_line :
  let df := {| columns := ["geometry"; "Road Number"; "speed_limit"; "KSI Count"];
               values := [[StrCell "LINESTRING EMPTY"; StrCell "A12";
                           IntCell 30; IntCell 3]] |} in
  let r := {| geometry := LineString []; geometry_type := "LineString";
              Road_Number := "A12"; speed_limit := 30; KSI_Count := 3 |} in
  In r (rows (snd (Sample.load_data df)))
  /\ ~ (2 <= vertices (geometry r))%nat.
Proof. simpl. split; [left; reflexivity | lia]. Qed.

Section LoaderClaims.

Variable wkt_loads : string -> py Geometry.
Variable UploadedFile : Type.
Variable read_csv : UploadedFile -> py DataFrame.
Variable astype_int : cell -> py Z.
Variable astype_str : cell -> string.
Variable str_strip : string -> string.

(** C2 (amended): in a table with a geometry column, a cell that fails to
    parse as well-known text ends the whole load: an error is shown and no
    record is returned. When every cell parses, the rows whose shape is not
    a LineString are dropped one by one and the others are kept in order,
    none lost, provided the three attribute columns are there and the
    speed and KSI cells of the kept rows convert to integers. *)
Theorem load_data_row_failures (file : UploadedFile) (df : DataFrame) (ig : nat) :
  read_csv file = Ok df ->
  position String.eqb "geometry" (columns df) = Some ig ->
  (forall cells,
      In cells (values df) ->
      raised (wkt_loads_cell wkt_loads (nth ig cells NaN)) = true ->
      exists e, load_data wkt_loads read_csv astype_int astype_str str_strip file
                = ([st_error ("Error loading data: " ++ e)], GeoDataFrame_new))
  /\ (forall geoms ir isp ik,
         Py.apply (wkt_loads_cell wkt_loads)
           (map (fun row => nth ig row NaN) (values df)) = Ok geoms ->
         position String.eqb "Road Number" (columns df) = Some ir ->
         position String.eqb "speed_limit" (columns df) = Some isp ->
         position String.eqb "KSI Count" (columns df) = Some ik ->
         (forall cells g,
             In (cells, g) (combine (values df) geoms) -> is_LineString g = true ->
             raised (astype_int (fillna (IntCell 0) (nth isp cells NaN))) = false
             /\ raised (astype_int (fillna (IntCell 0) (nth ik cells NaN))) = false) ->
         map geometry
           (rows (snd (load_data wkt_loads read_csv astype_int astype_str str_strip
                         file)))
         = filter is_LineString geoms
         /\ (filter is_LineString geoms <> [] ->
             fst (load_data wkt_loads read_csv astype_int astype_str str_strip file)
             = [])).
Proof.
  intros Hread Hg. split.
  - intros cells Hin Hraise. eapply load_data_aborts; eassumption.
  - intros geoms ir isp ik Hgeo Hr Hs Hk Hconv. eapply load_data_succeeds; eassumption.
Qed.

(** C9 (amended): after a load, the geometry of every record is a
    LineString, and the shapes kept are exactly those typed LineString
    among the shapes read (or none when the load ends in an error): any
    other shape is dropped at load time. A LineString is kept whatever its
    vertices, the empty one included; as the reader returns no line of a
    single vertex, a record has no vertex or at least 2. *)
Theorem load_data_keeps_lines_only (file : UploadedFile) :
  (forall r,
      In r (rows (snd (load_data wkt_loads read_csv astype_int astype_str str_strip
                         file))) ->
      (exists cs, geometry r = LineString cs)
      /\ geom_type (geometry r) = "LineString"
      /\ ((forall s cs, wkt_loads s = Ok (LineString cs) -> List.length cs <> 1%nat) ->
          vertices (geometry r) = 0%nat \/ (2 <= vertices (geometry r))%nat))
  /\ (forall df col geoms,
         read_csv file = Ok df ->
         getitem df "geometry" = Ok col ->
         Py.apply (wkt_loads_cell wkt_loads) col = Ok geoms ->
         rows (snd (load_data wkt_loads read_csv astype_int astype_str str_strip file))
         = []
         \/ map geometry
              (rows (snd (load_data wkt_loads read_csv astype_int astype_str str_strip
                            file)))
            = filter is_LineString geoms).
Proof.
  split.
  - intros r Hin. apply load_data_row_is_line in Hin. destruct Hin as [Hls [s Hs]].
    destruct (is_LineString_inv _ Hls) as [cs Hcs]. split; [exists cs; exact Hcs|].
    split; [rewrite Hcs; reflexivity|].
    intros Hvalid. rewrite Hcs in Hs. specialize (Hvalid s cs Hs).
    rewrite Hcs. simpl. lia.
  - intros df col geoms. apply load_data_geometries.
Qed.

End LoaderClaims.

Lemma load_data_row_failures_witness :
  let geoms := [LineString [(5 # 10, 515 # 10); (6 # 10, 516 # 10)];
                Point (Some (5 # 10, 515 # 10)); LineString []] in
  let bad := {| columns := ["Road Number"; "geometry"];
                values := [[StrCell "A12"; StrCell "LINESTRING (0 0, 1 1)"];
                           [StrCell "B1"; NaN]] |} in
  position String.eqb "geometry" (columns sample_table) = Some 0%nat
  /\ map geometry (rows (snd (Sample.load_data sample_table)))
     = filter is_LineString geoms
  /\ (filter is_LineString geoms <> [] -> fst (Sample.load_data sample_table) = [])
  /\ position String.eqb "geometry" (columns bad) = Some 1%nat
  /\ exists e, Sample.load_data bad
               = ([st_error ("Error loading data: " ++ e)], GeoDataFrame_new).
Proof.
  intros geoms bad. split; [reflexivity|].
  assert (H : map geometry (rows (snd (Sample.load_data sample_table)))
              = filter is_LineString geoms
              /\ (filter is_LineString geoms <> [] ->
                  fst (Sample.load_data sample_table) = [])).
  { apply (proj2 (@load_data_row_failures Sample.wkt_loads DataFrame Sample.read_csv
                    Sample.astype_int Sample.astype_str Sample.str_strip
                    sample_table sample_table 0%nat eq_refl eq_refl)
             geoms 1%nat 2%nat 3%nat); try reflexivity.
    intros cells g Hin Hls. simpl in Hin.
    destruct Hin as [E|[E|[E|[]]]]; injection E as <- <-;
      first [discriminate Hls | split; reflexivity]. }
  split; [exact (proj1 H)|]. split; [exact (proj2 H)|]. split; [reflexivity|].
  apply (proj1 (@load_data_row_failures Sample.wkt_loads DataFrame Sample.read_csv
                  Sample.astype_int Sample.astype_str Sample.str_strip
                  bad bad 1%nat eq_refl eq_refl)
           [StrCell "B1"; NaN]).
  - right. left. reflexivity.
  - reflexivity.
Defined.

Lemma sample_wkt_loads_valid (s : string) (cs : list coord) :
  Sample.wkt_loads s = Ok (LineString cs) -> List.length cs <> 1%nat.
Proof.
  unfold Sample.wkt_loads.
  repeat match goal with |- context [if ?b then _ else _] => destruct b end;
    intros H; inversion H; simpl; lia.
Qed.

Lemma load_data_keeps_lines_only_witness :
  let geoms := [LineString [(5 # 10, 515 # 10); (6 # 10, 516 # 10)];
                Point (Some (5 # 10, 515 # 10)); LineString []] in
  In sample_row (rows (snd (Sample.load_data sample_table)))
  /\ (exists cs, geometry sample_row = LineString cs)
  /\ geom_type (geometry sample_row) = "LineString"
  /\ (vertices (geometry sample_row) = 0%nat \/ (2 <= vertices (geometry sample_row))%nat)
  /\ (rows (snd (Sample.load_data sample_table)) = []
      \/ map geometry (rows (snd (Sample.load_data sample_table)))
         = filter is_LineString geoms).
Proof.
  intros geoms.
  assert (H : In sample_row (rows (snd (Sample.load_data sample_table)))).
  { left; reflexivity. }
  split; [exact H|].
  destruct (@load_data_keeps_lines_only Sample.wkt_loads DataFrame Sample.read_csv
              Sample.astype_int Sample.astype_str Sample.str_strip sample_table)
    as [Hrow Hall].
  destruct (Hrow sample_row H) as [H1 [H2 H3]].
  split; [exact H1|]. split; [exact H2|]. split; [exact (H3 sample_wkt_loads_valid)|].
  exact (Hall sample_table _ geoms eq_refl eq_refl eq_refl).
Defined.

(** ** Step 2: the CRS normalizer on geographic data *)

Lemma apply_crs_geographic (to_crs : string -> string -> Geometry -> Geometry)
    (gdf : GeoDataFrame) :
  within_geographic_range gdf ->
  crs gdf = None \/ crs gdf = Some "EPSG:4326" ->
  apply_crs to_crs gdf = Ok {| crs := Some "EPSG:4326"; rows := rows gdf |}.
Proof.
  intros Hin Hcrs. unfold apply_crs.
  rewrite (within_range_looks_geographic Hin). unfold set_crs.
  destruct gdf as [c l]. simpl in *. destruct Hcrs as [->| ->]; reflexivity.
Qed.

Section Normalizer.

Variable wkt_loads : string -> py Geometry.
Variable to_crs : string -> string -> Geometry -> Geometry.
Variable UploadedFile : Type.
Variable read_csv : UploadedFile -> py DataFrame.
Variable astype_int : cell -> py Z.
Variable astype_str : cell -> string.
Variable str_strip : string -> string.

(** C7: on a record set whose coordinates all lie strictly within
    longitude (-180,180) and latitude (-90,90), the normalizer returns the
    records with their coordinates unchanged, and applying it again to its
    own result changes nothing. This holds of any frame that carries no CRS
    yet or EPSG:4326, hence of every frame [load_data] returns. *)
Theorem apply_crs_idempotent_on_geographic :
  (forall gdf,
      within_geographic_range gdf ->
      crs gdf = None \/ crs gdf = Some "EPSG:4326" ->
      exists gdf1,
        apply_crs to_crs gdf = Ok gdf1
        /\ rows gdf1 = rows gdf
        /\ apply_crs to_crs gdf1 = Ok gdf1)
  /\ (forall file,
         let gdf := snd (load_data wkt_loads read_csv astype_int astype_str str_strip file) in
         within_geographic_range gdf ->
         exists gdf1,
           apply_crs to_crs gdf = Ok gdf1
           /\ map geometry (rows gdf1) = map geometry (rows gdf)
           /\ apply_crs to_crs gdf1 = Ok gdf1).
Proof.
  assert (H : forall gdf,
             within_geographic_range gdf ->
             crs gdf = None \/ crs gdf = Some "EPSG:4326" ->
             exists gdf1,
               apply_crs to_crs gdf = Ok gdf1
               /\ rows gdf1 = rows gdf
               /\ apply_crs to_crs gdf1 = Ok gdf1).
  { intros gdf Hin Hcrs. exists {| crs := Some "EPSG:4326"; rows := rows gdf |}.
    split; [apply apply_crs_geographic; assumption|]. split; [reflexivity|].
    apply (apply_crs_geographic to_crs
             (gdf := {| crs := Some "EPSG:4326"; rows := rows gdf |})).
    - eapply within_range_rows; [|exact Hin]. reflexivity.
    - right. reflexivity. }
  split; [exact H|].
  intros file gdf Hin. destruct (H gdf Hin) as [gdf1 [H1 [H2 H3]]].
  - left. apply load_data_crs.
  - exists gdf1. rewrite H2. auto.
Qed.

End Normalizer.

Lemma sample_within_range : within_geographic_range (frame_of [sample_row]).
Proof.
  split.
  - exists sample_row. split; [left; reflexivity | discriminate].
  - intros r x y [<-|[]] [H|[H|[]]]; injection H as <- <-;
      unfold Qlt; simpl; lia.
Qed.

Lemma sample_table_within_range :
  within_geographic_range (snd (Sample.load_data sample_table)).
Proof.
  split.
  - exists sample_row. split; [left; reflexivity | discriminate].
  - intros r x y [<-|[<-|[]]] Hin; simpl in Hin; [|contradiction].
    destruct Hin as [H|[H|[]]]; injection H as <- <-; unfold Qlt; simpl; lia.
Qed.

Lemma apply_crs_idempotent_on_geographic_witness :
  within_geographic_range (frame_of [sample_row])
  /\ (exists gdf1,
         apply_crs Sample.to_crs (frame_of [sample_row]) = Ok gdf1
         /\ rows gdf1 = rows (frame_of [sample_row])
         /\ apply_crs Sample.to_crs gdf1 = Ok gdf1)
  /\ within_geographic_range (snd (Sample.load_data sample_table))
  /\ (exists gdf1,
         apply_crs Sample.to_crs (snd (Sample.load_data sample_table)) = Ok gdf1
         /\ map geometry (rows gdf1)
            = map geometry (rows (snd (Sample.load_data sample_table)))
         /\ apply_crs Sample.to_crs gdf1 = Ok gdf1).
Proof.
  destruct (@apply_crs_idempotent_on_geographic Sample.wkt_loads Sample.to_crs
              DataFrame Sample.read_csv Sample.astype_int Sample.astype_str
              Sample.str_strip) as [Hany Hloaded].
  split; [exact sample_within_range|]. split.
  - apply (Hany (frame_of [sample_row]) sample_within_range). left. reflexivity.
  - split; [exact sample_table_within_range|].
    exact (Hloaded sample_table sample_table_within_range).
Defined.

(** ** The whole run: what reaches the colour function *)

Section Pipeline.

Variable wkt_loads : string -> py Geometry.
Variable intersects : Geometry -> Geometry -> bool.
Variable Tck : Type.
Variable splprep : list (list Q) -> Q -> py (Tck * list Q).
Variable splev : list Q -> Tck -> py (list (list Q)).
Variable to_crs : string -> string -> Geometry -> Geometry.
Variable UploadedFile : Type.
Variable read_csv : UploadedFile -> py DataFrame.
Variable astype_int : cell -> py Z.
Variable astype_str : cell -> string.
Variable str_strip : string -> string.

Lemma filtered_nonzero (sb : Sidebar) (gdf : GeoDataFrame) (r : Row) :
  In r (rows (filtered intersects splprep splev sb gdf)) -> KSI_Count r <> 0.
Proof.
  unfold filtered. rewrite smooth_rows. intros Hin.
  apply in_map_iff in Hin. destruct Hin as [r0 [<- Hin]]. simpl.
  rewrite filter_ksi_select in Hin. apply select_In in Hin. destruct Hin as [Hin _].
  rewrite filter_attributes_select in Hin. apply select_In in Hin.
  destruct Hin as [Hin _].
  rewrite filter_nonzero_select in Hin. apply select_In in Hin.
  destruct Hin as [_ Hk]. apply negb_true_iff, Z.eqb_neq in Hk. exact Hk.
Qed.

Lemma run_features (sb : Sidebar) (uploaded_file : option UploadedFile)
    (fs : list (Row * string)) (f : Row * string) :
  In (folium_static fs)
     (run wkt_loads intersects splprep splev to_crs read_csv astype_int astype_str
          str_strip sb uploaded_file) ->
  In f fs ->
  KSI_Count (fst f) <> 0 /\ snd f = get_ksi_color (KSI_Count (fst f)).
Proof.
  unfold run. destruct uploaded_file as [file|].
  2:{ intros [H|[]]. discriminate. }
  pose proof (load_data_shown wkt_loads read_csv astype_int astype_str str_strip file)
    as Hshown.
  destruct (load_data wkt_loads read_csv astype_int astype_str str_strip file)
    as [shown gdf].
  simpl in Hshown.
  assert (Hno : ~ In (folium_static fs) shown).
  { intros H. destruct (Hshown _ H) as [m Hm]. discriminate. }
  destruct (empty gdf); simpl; [intros H; contradiction|].
  destruct (apply_crs to_crs gdf) as [gdf1|e]; intros Hin Hf;
    apply in_app_or in Hin; destruct Hin as [Hin|Hin]; try contradiction.
  - unfold render in Hin.
    destruct (empty (filtered intersects splprep splev sb gdf1)); simpl in Hin;
      destruct Hin as [Hin|[]]; [discriminate|].
    injection Hin as <-. unfold features in Hf. apply in_map_iff in Hf.
    destruct Hf as [r [<- Hr]]. simpl. split; [|reflexivity].
    eapply filtered_nonzero; eassumption.
  - destruct Hin as [Hin|[]]. discriminate.
Qed.

(** C6: a KSI count of 4 falls in the bucket 1-4 and is drawn yellow, 5
    falls in 5-7 and is drawn orange, 8 falls in 8+ and is drawn red; and on
    every run, no segment handed to the map, hence to the colour function,
    has a KSI count of 0. *)
Theorem severity_boundaries_and_zero_exclusion :
  (forall r, KSI_Count r = 4 ->
             ksi_1_4 (frame_of [r]) = [true] /\ ksi_5_7 (frame_of [r]) = [false]
             /\ ksi_8 (frame_of [r]) = [false]
             /\ get_ksi_color (KSI_Count r) = "yellow")
  /\ (forall r, KSI_Count r = 5 ->
                ksi_1_4 (frame_of [r]) = [false] /\ ksi_5_7 (frame_of [r]) = [true]
                /\ ksi_8 (frame_of [r]) = [false]
                /\ get_ksi_color (KSI_Count r) = "orange")
  /\ (forall r, KSI_Count r = 8 ->
                ksi_1_4 (frame_of [r]) = [false] /\ ksi_5_7 (frame_of [r]) = [false]
                /\ ksi_8 (frame_of [r]) = [true]
                /\ get_ksi_color (KSI_Count r) = "red")
  /\ (forall sb uploaded_file fs f,
         In (folium_static fs)
            (run wkt_loads intersects splprep splev to_crs read_csv astype_int
                 astype_str str_strip sb uploaded_file) ->
         In f fs ->
         KSI_Count (fst f) <> 0 /\ snd f = get_ksi_color (KSI_Count (fst f))).
Proof.
  split; [|split; [|split]].
  - intros r H. unfold ksi_1_4, ksi_5_7, ksi_8. simpl. rewrite H. repeat split.
  - intros r H. unfold ksi_1_4, ksi_5_7, ksi_8. simpl. rewrite H. repeat split.
  - intros r H. unfold ksi_1_4, ksi_5_7, ksi_8. simpl. rewrite H. repeat split.
  - apply run_features.
Qed.

End Pipeline.

Lemma severity_boundaries_and_zero_exclusion_witness :
  let df := {| columns := ["geometry"; "Road Number"; "speed_limit"; "KSI Count"];
               values := [[StrCell "LINESTRING (0.5 51.5, 0.6 51.6)"; StrCell "A12";
                           IntCell 30; IntCell 4];
                          [StrCell "LINESTRING (0.5 51.5, 0.6 51.6)"; StrCell "A12";
                           IntCell 30; IntCell 0]] |} in
  let row k := {| geometry := LineString [(5 # 10, 515 # 10); (6 # 10, 516 # 10)];
                  geometry_type := "LineString";
                  Road_Number := "A12"; speed_limit := 30; KSI_Count := k |} in
  In (folium_static [(row 4, "yellow")]) (Sample.run Sample.sidebar_all (Some df))
  /\ KSI_Count (fst (row 4, "yellow")) <> 0
  /\ (ksi_1_4 (frame_of [row 4]) = [true] /\ get_ksi_color (KSI_Count (row 4)) = "yellow")
  /\ (ksi_5_7 (frame_of [row 5]) = [true] /\ get_ksi_color (KSI_Count (row 5)) = "orange")
  /\ (ksi_8 (frame_of [row 8]) = [true] /\ get_ksi_color (KSI_Count (row 8)) = "red").
Proof.
  intros df row.
  assert (Hrun : In (folium_static [(row 4, "yellow")])
                    (Sample.run Sample.sidebar_all (Some df))).
  { left. reflexivity. }
  pose proof (@severity_boundaries_and_zero_exclusion Sample.wkt_loads Sample.intersects
                Sample.Tck Sample.splprep Sample.splev Sample.to_crs DataFrame
                Sample.read_csv Sample.astype_int Sample.astype_str Sample.str_strip)
    as [H4 [H5 [H8 Hzero]]].
  split; [exact Hrun|]. split.
  - apply (proj1 (Hzero Sample.sidebar_all (Some df) [(row 4, "yellow")] (row 4, "yellow")
                    Hrun (or_introl eq_refl))).
  - destruct (H4 (row 4) eq_refl) as [B4 [_ [_ C4]]].
    destruct (H5 (row 5) eq_refl) as [_ [B5 [_ C5]]].
    destruct (H8 (row 8) eq_refl) as [_ [_ [B8 C8]]].
    repeat split; assumption.
Defined.

(** With a single sample point the fit succeeds and [LineString] refuses
    the one coordinate: the line comes back unsmoothed. *)
Example smooth_geometry_one_point :
  let g := LineString [Sample.pt 0 0; Sample.pt 1 2; Sample.pt 2 0; Sample.pt 3 2;
                       Sample.pt 4 0] in
  raised (Sample.splprep [[0; 1; 2; 3; 4]; [0; 2; 0; 2; 0]]%Q 0%Q) = false
  /\ Sample.smooth_geometry g 0%Q 1 = g.
Proof. split; reflexivity. Qed.

(** ** The scenario of three rows

    A line of 5 points with a count of 3, a line of 2 points with a count
    of 0 and a point: one segment is drawn, yellow, resampled to 500
    points. *)
Example run_three_rows :
  let df := {| columns := ["geometry"; "Road Number"; "speed_limit"; "KSI Count"];
               values :=
                 [[StrCell "LINESTRING (0.5 51.5, 0.55 51.6, 0.6 51.5, 0.65 51.6, 0.7 51.5)";
                   StrCell "A12"; IntCell 30; IntCell 3];
                  [StrCell "LINESTRING (0.5 51.5, 0.6 51.6)"; StrCell "A12";
                   IntCell 30; IntCell 0];
                  [StrCell "POINT (0.5 51.5)"; StrCell "B1"; IntCell 40; IntCell 10]] |} in
  exists r cs,
    Sample.run Sample.sidebar_all (Some df) = [folium_static [(r, "yellow")]]
    /\ geometry r = LineString cs /\ List.length cs = 500%nat
    /\ Road_Number r = "A12" /\ KSI_Count r = 3.
Proof.
  intros df. eexists. eexists. split; [vm_compute; reflexivity|].
  split; [reflexivity|]. split; [vm_compute; reflexivity|]. split; reflexivity.
Qed.

(** * Further properties of the script *)

(** ** The loader: every way out of [load_data] *)

Lemma existsb_eqb_In (name : string) (cols : list string) :
  existsb (String.eqb name) cols = true <-> In name cols.
Proof.
  rewrite existsb_exists. split.
  - intros [x [Hin He]]. apply String.eqb_eq in He. subst. exact Hin.
  - intros Hin. exists name. split; [exact Hin | apply String.eqb_refl].
Qed.

Lemma position_In (name : string) (cols : list string) :
  (exists i, position String.eqb name cols = Some i) <-> In name cols.
Proof. rewrite <- position_existsb. apply existsb_eqb_In. Qed.

Lemma getitem_missing (df : DataFrame) (name : string) :
  ~ In name (columns df) -> getitem df name = Raise ("'" ++ name ++ "'").
Proof.
  intros H. unfold getitem.
  destruct (position String.eqb name (columns df)) as [i|] eqn:E; [|reflexivity].
  exfalso. apply H. apply position_In. exists i. exact E.
Qed.

Lemma line_rows_kept (vals : list (list cell)) (geoms : list Geometry) :
  line_rows vals geoms
  = map (fun cg => (fst cg, (snd cg, geom_type (snd cg)))) (kept_rows vals geoms).
Proof.
  unfold line_rows, kept_rows. revert geoms.
  induction vals as [|v t IH]; intros [|g gs]; simpl; try reflexivity.
  unfold is_LineString_row at 1. unfold is_LineString at 1. simpl.
  destruct (geom_type g =? "LineString")%string; simpl; rewrite IH; reflexivity.
Qed.

Lemma line_rows_nil (vals : list (list cell)) (geoms : list Geometry) :
  line_rows vals geoms = [] <-> kept_rows vals geoms = [].
Proof.
  rewrite line_rows_kept. destruct (kept_rows vals geoms); simpl; split;
    intros H; first [reflexivity | discriminate H].
Qed.

Section LoaderCases.

Variable wkt_loads : string -> py Geometry.
Variable astype_int : cell -> py Z.
Variable astype_str : cell -> string.
Variable str_strip : string -> string.

(** The three ways [load_data_frame] returns without raising. *)
Lemma load_data_frame_cases (df : DataFrame) (shown : list st_event) (gdf : GeoDataFrame) :
  load_data_frame wkt_loads astype_int astype_str str_strip df = Ok (shown, gdf) ->
  (~ In "geometry" (columns df)
   /\ shown = [st_error "Error: The uploaded file must contain a 'geometry' column."]
   /\ gdf = GeoDataFrame_new)
  \/ exists ig geoms,
      position String.eqb "geometry" (columns df) = Some ig
      /\ Py.apply (wkt_loads_cell wkt_loads)
           (map (fun row => nth ig row NaN) (values df)) = Ok geoms
      /\ ((kept_rows (values df) geoms = []
           /\ shown = [st_error "No valid LineString geometries found in the dataset."]
           /\ gdf = GeoDataFrame_new)
          \/ (kept_rows (values df) geoms <> [] /\ shown = []
              /\ exists ir isp ik speed ksi,
                  position String.eqb "Road Number" (columns df) = Some ir
                  /\ position String.eqb "speed_limit" (columns df) = Some isp
                  /\ position String.eqb "KSI Count" (columns df) = Some ik
                  /\ Py.apply astype_int
                       (map (fillna (IntCell 0))
                          (map (fun row => nth isp row NaN)
                             (map fst (line_rows (values df) geoms)))) = Ok speed
                  /\ Py.apply astype_int
                       (map (fillna (IntCell 0))
                          (map (fun row => nth ik row NaN)
                             (map fst (line_rows (values df) geoms)))) = Ok ksi
                  /\ gdf = {| crs := None;
                              rows := map make_row
                                (combine (combine (combine
                                   (line_rows (values df) geoms)
                                   (map (fun c => str_strip
                                           (astype_str (fillna (StrCell "Unknown") c)))
                                      (map (fun row => nth ir row NaN)
                                         (map fst (line_rows (values df) geoms)))))
                                   speed) ksi) |})).
Proof.
  unfold load_data_frame.
  destruct (existsb (String.eqb "geometry") (columns df)) eqn:Hcol; cbn [negb].
  2:{ intros H. injection H as <- <-. left. split; [|split; reflexivity].
      intros Hin. apply existsb_eqb_In in Hin. congruence. }
  apply position_existsb in Hcol. destruct Hcol as [ig Hig].
  rewrite (getitem_position _ _ Hig). cbn [Py.bind].
  destruct (Py.apply (wkt_loads_cell wkt_loads)
              (map (fun row => nth ig row NaN) (values df))) as [geoms|e] eqn:Hgeo;
    cbn [Py.bind]; [|discriminate].
  rewrite mask_rows_map. fold (line_rows (values df) geoms).
  intros H. right. exists ig, geoms. split; [exact Hig|]. split; [exact Hgeo|].
  destruct (line_rows (values df) geoms) as [|r0 df2] eqn:Hrows.
  - injection H as <- <-. left. split; [|split; reflexivity].
    apply line_rows_nil. exact Hrows.
  - right. split.
    { intros Hk. apply line_rows_nil in Hk. congruence. }
    unfold getitem in H. cbn [columns values] in H.
    destruct (position String.eqb "Road Number" (columns df)) as [ir|] eqn:Hir;
      cbn [Py.bind] in H; [|discriminate].
    destruct (position String.eqb "speed_limit" (columns df)) as [isp|] eqn:Hisp;
      cbn [Py.bind] in H; [|discriminate].
    destruct (Py.apply astype_int
                (map (fillna (IntCell 0))
                   (map (fun row => nth isp row NaN) (map fst (r0 :: df2)))))
      as [speed|e] eqn:Hs; cbn [Py.bind] in H; [|discriminate].
    destruct (position String.eqb "KSI Count" (columns df)) as [ik|] eqn:Hik;
      cbn [Py.bind] in H; [|discriminate].
    destruct (Py.apply astype_int
                (map (fillna (IntCell 0))
                   (map (fun row => nth ik row NaN) (map fst (r0 :: df2)))))
      as [ksi|e] eqn:Hk; cbn [Py.bind] in H; [|discriminate].
    injection H as <- <-. split; [reflexivity|].
    exists ir, isp, ik, speed, ksi. repeat split; assumption || reflexivity.
Qed.

End LoaderCases.

Lemma apply_ok_In {A B} (f : A -> py B) (l : list A) (l' : list B) (a : A) :
  Py.apply f l = Ok l' -> In a l -> raised (f a) = false.
Proof.
  intros H Hin. destruct (raised (f a)) eqn:E; [|reflexivity].
  pose proof (apply_raises f l a Hin E) as Hr. rewrite H in Hr. discriminate.
Qed.

Lemma kept_rows_LineString (vals : list (list cell)) (geoms : list Geometry)
    (cg : list cell * Geometry) :
  In cg (kept_rows vals geoms) -> geom_type (snd cg) = "LineString".
Proof.
  unfold kept_rows. rewrite filter_In. intros [_ H]. apply String.eqb_eq. exact H.
Qed.

Lemma make_rows_Forall2 (astype_int : cell -> py Z) (astype_str : cell -> string)
    (str_strip : string -> string) (ir isp ik : nat)
    (kept : list (list cell * Geometry)) (speed ksi : list Z) :
  (forall cg, In cg kept -> geom_type (snd cg) = "LineString") ->
  Py.apply astype_int
    (map (fillna (IntCell 0))
       (map (fun row => nth isp row NaN)
          (map fst (map (fun cg => (fst cg, (snd cg, geom_type (snd cg)))) kept))))
  = Ok speed ->
  Py.apply astype_int
    (map (fillna (IntCell 0))
       (map (fun row => nth ik row NaN)
          (map fst (map (fun cg => (fst cg, (snd cg, geom_type (snd cg)))) kept))))
  = Ok ksi ->
  Forall2 (record_of_cells astype_int astype_str str_strip ir isp ik) kept
    (map make_row
       (combine (combine (combine
          (map (fun cg => (fst cg, (snd cg, geom_type (snd cg)))) kept)
          (map (fun c => str_strip (astype_str (fillna (StrCell "Unknown") c)))
             (map (fun row => nth ir row NaN)
                (map fst (map (fun cg => (fst cg, (snd cg, geom_type (snd cg))))
                            kept)))))
          speed) ksi)).
Proof.
  revert speed ksi. induction kept as [|[cells g] t IH]; intros speed ksi Hls Hs Hk.
  - simpl. constructor.
  - simpl in Hs, Hk.
    destruct (astype_int (fillna (IntCell 0) (nth isp cells NaN))) as [s|e] eqn:Es;
      [|discriminate].
    destruct (Py.apply astype_int _) as [ss|e] eqn:Ess in Hs; [|discriminate].
    injection Hs as <-.
    destruct (astype_int (fillna (IntCell 0) (nth ik cells NaN))) as [k|e] eqn:Ek;
      [|discriminate].
    destruct (Py.apply astype_int _) as [ks|e] eqn:Eks in Hk; [|discriminate].
    injection Hk as <-.
    simpl. constructor.
    + unfold record_of_cells. simpl. repeat split; try assumption.
      apply (Hls (cells, g)). left. reflexivity.
    + apply IH; [|assumption|assumption].
      intros cg Hin. apply Hls. right. exact Hin.
Qed.

Section LoaderOutcomes.

Variable wkt_loads : string -> py Geometry.
Variable UploadedFile : Type.
Variable read_csv : UploadedFile -> py DataFrame.
Variable astype_int : cell -> py Z.
Variable astype_str : cell -> string.
Variable str_strip : string -> string.

(** X1: a table without a [geometry] column is refused with the schema
    message and an empty frame, whatever else it holds. *)
Theorem load_data_missing_geometry (file : UploadedFile) (df : DataFrame) :
  read_csv file = Ok df ->
  ~ In "geometry" (columns df) ->
  load_data wkt_loads read_csv astype_int astype_str str_strip file
  = ([st_error "Error: The uploaded file must contain a 'geometry' column."],
     GeoDataFrame_new).
Proof.
  intros Hread Hno. erewrite load_data_read by exact Hread. unfold load_data_frame.
  destruct (existsb (String.eqb "geometry") (columns df)) eqn:E; [|reflexivity].
  exfalso. apply Hno. apply existsb_eqb_In. exact E.
Qed.

(** X2: when every geometry cell parses and none is a LineString (an empty
    table included), the load ends with the "No valid LineString" message
    and an empty frame; the attribute columns are not looked at, so they may
    be absent or unconvertible. *)
Theorem load_data_no_linestring (file : UploadedFile) (df : DataFrame) (ig : nat)
    (geoms : list Geometry) :
  read_csv file = Ok df ->
  position String.eqb "geometry" (columns df) = Some ig ->
  Py.apply (wkt_loads_cell wkt_loads) (map (fun row => nth ig row NaN) (values df))
  = Ok geoms ->
  Forall (fun g => geom_type g <> "LineString") geoms ->
  load_data wkt_loads read_csv astype_int astype_str str_strip file
  = ([st_error "No valid LineString geometries found in the dataset."],
     GeoDataFrame_new).
Proof.
  intros Hread Hig Hgeo Hnone. erewrite load_data_read by exact Hread.
  unfold load_data_frame.
  assert (Hcol : existsb (String.eqb "geometry") (columns df) = true).
  { apply position_existsb. eexists; exact Hig. }
  rewrite Hcol, (getitem_position _ _ Hig). cbn [negb Py.bind]. rewrite Hgeo.
  cbn [Py.bind]. rewrite mask_rows_map. fold (line_rows (values df) geoms).
  assert (Hk : kept_rows (values df) geoms = []).
  { unfold kept_rows. clear Hgeo. revert Hnone. generalize (values df) as vals.
    induction geoms as [|g gs IH]; intros vals Hnone; destruct vals as [|v vs];
      simpl; try reflexivity.
    inversion Hnone as [|? ? Hg Hgs]. subst. unfold is_LineString at 1.
    apply String.eqb_neq in Hg. rewrite Hg. apply IH. exact Hgs. }
  apply line_rows_nil in Hk. rewrite Hk. reflexivity.
Qed.

(** X3: with a LineString row to keep, a missing attribute column ends the
    load with an empty frame and an "Error loading data" message; for
    [Road Number], looked up first, the message names the column. *)
Theorem load_data_missing_attribute (file : UploadedFile) (df : DataFrame) (ig : nat)
    (geoms : list Geometry) :
  read_csv file = Ok df ->
  position String.eqb "geometry" (columns df) = Some ig ->
  Py.apply (wkt_loads_cell wkt_loads) (map (fun row => nth ig row NaN) (values df))
  = Ok geoms ->
  kept_rows (values df) geoms <> [] ->
  (~ In "Road Number" (columns df) \/ ~ In "speed_limit" (columns df)
   \/ ~ In "KSI Count" (columns df) ->
   exists m, load_data wkt_loads read_csv astype_int astype_str str_strip file
             = ([st_error ("Error loading data: " ++ m)], GeoDataFrame_new))
  /\ (~ In "Road Number" (columns df) ->
      load_data wkt_loads read_csv astype_int astype_str str_strip file
      = ([st_error "Error loading data: 'Road Number'"], GeoDataFrame_new)).
Proof.
  intros Hread Hig Hgeo Hkept. split.
  - intros Hmiss. erewrite load_data_read by exact Hread.
    destruct (load_data_frame wkt_loads astype_int astype_str str_strip df)
      as [[shown gdf]|e] eqn:H; [|eexists; reflexivity].
    exfalso. apply load_data_frame_cases in H.
    destruct H as [[Hno _]|[ig' [geoms' [Hig' [Hgeo' H]]]]].
    { apply Hno. apply position_In. eexists; exact Hig. }
    rewrite Hig in Hig'. injection Hig' as <-.
    rewrite Hgeo in Hgeo'. injection Hgeo' as <-.
    destruct H as [[Hnil _]|[_ [_ [ir [isp [ik [speed [ksi [Hir [Hisp [Hik _]]]]]]]]]]].
    { contradiction. }
    destruct Hmiss as [Hm|[Hm|Hm]]; apply Hm; apply position_In; eexists; eassumption.
  - intros Hmiss. erewrite load_data_read by exact Hread. unfold load_data_frame.
    assert (Hcol : existsb (String.eqb "geometry") (columns df) = true).
    { apply position_existsb. eexists; exact Hig. }
    rewrite Hcol, (getitem_position _ _ Hig). cbn [negb Py.bind]. rewrite Hgeo.
    cbn [Py.bind]. rewrite mask_rows_map. fold (line_rows (values df) geoms).
    destruct (line_rows (values df) geoms) as [|r0 df2] eqn:Hrows.
    { apply line_rows_nil in Hrows. contradiction. }
    rewrite (getitem_missing {| columns := columns df; values := map fst (r0 :: df2) |}
               "Road Number" Hmiss).
    reflexivity.
Qed.

(** X4: a speed or KSI cell of a kept row that does not convert to an
    integer ends the load with an empty frame and an "Error loading data"
    message. *)
Theorem load_data_unconvertible_cell (file : UploadedFile) (df : DataFrame)
    (ig i : nat) (geoms : list Geometry) (cells : list cell) (g : Geometry) :
  read_csv file = Ok df ->
  position String.eqb "geometry" (columns df) = Some ig ->
  Py.apply (wkt_loads_cell wkt_loads) (map (fun row => nth ig row NaN) (values df))
  = Ok geoms ->
  position String.eqb "speed_limit" (columns df) = Some i
  \/ position String.eqb "KSI Count" (columns df) = Some i ->
  In (cells, g) (kept_rows (values df) geoms) ->
  raised (astype_int (fillna (IntCell 0) (nth i cells NaN))) = true ->
  exists m, load_data wkt_loads read_csv astype_int astype_str str_strip file
            = ([st_error ("Error loading data: " ++ m)], GeoDataFrame_new).
Proof.
  intros Hread Hig Hgeo Hi Hin Hbad. erewrite load_data_read by exact Hread.
  destruct (load_data_frame wkt_loads astype_int astype_str str_strip df)
    as [[shown gdf]|e] eqn:H; [|eexists; reflexivity].
  exfalso. apply load_data_frame_cases in H.
  destruct H as [[Hno _]|[ig' [geoms' [Hig' [Hgeo' H]]]]].
  { apply Hno. apply position_In. eexists; exact Hig. }
  rewrite Hig in Hig'. injection Hig' as <-.
  rewrite Hgeo in Hgeo'. injection Hgeo' as <-.
  destruct H as [[Hnil _]|[_ [_ [ir [isp [ik [speed [ksi
                    [_ [Hisp [Hik [Hs [Hk _]]]]]]]]]]]]].
  { rewrite Hnil in Hin. contradiction. }
  assert (Hcell : forall j,
             In (fillna (IntCell 0) (nth j cells NaN))
                (map (fillna (IntCell 0))
                   (map (fun row => nth j row NaN)
                      (map fst (line_rows (values df) geoms))))).
  { intros j. apply in_map. apply (in_map (fun row => nth j row NaN)).
    rewrite line_rows_kept, map_map. simpl.
    apply (in_map (fun cg => fst cg)) in Hin. exact Hin. }
  destruct Hi as [Hi|Hi].
  - rewrite Hisp in Hi. injection Hi as <-.
    pose proof (apply_ok_In _ _ _ Hs (Hcell isp)) as Hok. congruence.
  - rewrite Hik in Hi. injection Hi as <-.
    pose proof (apply_ok_In _ _ _ Hk (Hcell ik)) as Hok. congruence.
Qed.

(** X5: a load shows an error exactly when it returns no record: either
    one error message and the empty frame, or no message and a frame of at
    least one record that carries no CRS yet. *)
Theorem load_data_error_or_records (file : UploadedFile) :
  (exists m, load_data wkt_loads read_csv astype_int astype_str str_strip file
             = ([st_error m], GeoDataFrame_new))
  \/ (fst (load_data wkt_loads read_csv astype_int astype_str str_strip file) = []
      /\ rows (snd (load_data wkt_loads read_csv astype_int astype_str str_strip file))
         <> []
      /\ crs (snd (load_data wkt_loads read_csv astype_int astype_str str_strip file))
         = None).
Proof.
  destruct (load_data_inv wkt_loads read_csv astype_int astype_str str_strip file)
    as [H|[df [col [geoms [road [speed [ksi
          [_ [_ [_ [Hne [Hr [Hs [Hk ->]]]]]]]]]]]]]]; [left; exact H|].
  right. simpl. split; [reflexivity|]. split; [|reflexivity].
  destruct (line_rows (values df) geoms) as [|r0 df2]; [congruence|].
  destruct road, speed, ksi; simpl in *; discriminate.
Qed.

(** X6: the records of a successful load are the kept rows of the table,
    one for one and in order: each record has the shape read from its own
    row, and its road, speed and KSI values are those of the same row,
    missing values filled with "Unknown" and 0 before conversion. *)
Theorem load_data_records_match_rows (file : UploadedFile) (df : DataFrame)
    (ig ir isp ik : nat) (geoms : list Geometry) :
  read_csv file = Ok df ->
  position String.eqb "geometry" (columns df) = Some ig ->
  Py.apply (wkt_loads_cell wkt_loads) (map (fun row => nth ig row NaN) (values df))
  = Ok geoms ->
  position String.eqb "Road Number" (columns df) = Some ir ->
  position String.eqb "speed_limit" (columns df) = Some isp ->
  position String.eqb "KSI Count" (columns df) = Some ik ->
  rows (snd (load_data wkt_loads read_csv astype_int astype_str str_strip file)) <> [] ->
  Forall2 (record_of_cells astype_int astype_str str_strip ir isp ik)
    (kept_rows (values df) geoms)
    (rows (snd (load_data wkt_loads read_csv astype_int astype_str str_strip file))).
Proof.
  intros Hread Hig Hgeo Hir Hisp Hik.
  erewrite load_data_read by exact Hread.
  destruct (load_data_frame wkt_loads astype_int astype_str str_strip df)
    as [[shown gdf]|e] eqn:H; simpl; [|congruence].
  apply load_data_frame_cases in H.
  destruct H as [[_ [_ ->]]|[ig' [geoms' [Hig' [Hgeo' H]]]]]; [simpl; congruence|].
  rewrite Hig in Hig'. injection Hig' as <-.
  rewrite Hgeo in Hgeo'. injection Hgeo' as <-.
  destruct H as [[_ [_ ->]]|[_ [_ [ir' [isp' [ik' [speed [ksi
                    [Hir' [Hisp' [Hik' [Hs [Hk ->]]]]]]]]]]]]]; [simpl; congruence|].
  intros _. simpl.
  rewrite Hir in Hir'. injection Hir' as <-.
  rewrite Hisp in Hisp'. injection Hisp' as <-.
  rewrite Hik in Hik'. injection Hik' as <-.
  rewrite line_rows_kept in *.
  apply make_rows_Forall2; [|exact Hs|exact Hk].
  intros cg. apply kept_rows_LineString.
Qed.

(** X7: a geometry cell that is not text (a missing value, a number) ends
    the load with an empty frame whatever the reader does on text: one
    blank geometry cell costs the whole table. *)
Theorem load_data_blank_geometry (file : UploadedFile) (df : DataFrame) (ig : nat)
    (cells : list cell) :
  read_csv file = Ok df ->
  position String.eqb "geometry" (columns df) = Some ig ->
  In cells (values df) ->
  (forall s, nth ig cells NaN <> StrCell s) ->
  exists m, load_data wkt_loads read_csv astype_int astype_str str_strip file
            = ([st_error ("Error loading data: " ++ m)], GeoDataFrame_new).
Proof.
  intros Hread Hig Hin Hblank.
  eapply load_data_aborts; try eassumption.
  destruct (nth ig cells NaN) as [| | |s]; try reflexivity.
  exfalso. apply (Hblank s). reflexivity.
Qed.

End LoaderOutcomes.

Lemma load_data_missing_geometry_witness :
  let df := {| columns := ["Road Number"; "KSI Count"];
               values := [[StrCell "A12"; IntCell 3]] |} in
  ~ In "geometry" (columns df)
  /\ Sample.load_data df
     = ([st_error "Error: The uploaded file must contain a 'geometry' column."],
        GeoDataFrame_new).
Proof.
  intros df.
  assert (H : ~ In "geometry" (columns df)).
  { simpl. intros [H|[H|[]]]; discriminate. }
  split; [exact H|].
  exact (@load_data_missing_geometry Sample.wkt_loads DataFrame Sample.read_csv
           Sample.astype_int Sample.astype_str Sample.str_strip df df eq_refl H).
Defined.

Lemma load_data_no_linestring_witness :
  let df := {| columns := ["geometry"];
               values := [[StrCell "POINT (0.5 51.5)"]] |} in
  Forall (fun g => geom_type g <> "LineString") [Point (Some (5 # 10, 515 # 10))]
  /\ Sample.load_data df
     = ([st_error "No valid LineString geometries found in the dataset."],
        GeoDataFrame_new).
Proof.
  intros df.
  assert (H : Forall (fun g => geom_type g <> "LineString")
                [Point (Some (5 # 10, 515 # 10))]).
  { constructor; [discriminate | constructor]. }
  split; [exact H|].
  exact (@load_data_no_linestring Sample.wkt_loads DataFrame Sample.read_csv
           Sample.astype_int Sample.astype_str Sample.str_strip df df 0%nat
           [Point (Some (5 # 10, 515 # 10))] eq_refl eq_refl eq_refl H).
Defined.

Lemma load_data_missing_attribute_witness :
  let df := {| columns := ["geometry"; "speed_limit"; "KSI Count"];
               values := [[StrCell "LINESTRING (0 0, 1 1)"; IntCell 30; IntCell 3]] |} in
  ~ In "Road Number" (columns df)
  /\ Sample.load_data df
     = ([st_error "Error loading data: 'Road Number'"], GeoDataFrame_new)
  /\ exists m, Sample.load_data df
               = ([st_error ("Error loading data: " ++ m)], GeoDataFrame_new).
Proof.
  intros df.
  assert (H : ~ In "Road Number" (columns df)).
  { simpl. intros [H|[H|[H|[]]]]; discriminate. }
  destruct (@load_data_missing_attribute Sample.wkt_loads DataFrame Sample.read_csv
              Sample.astype_int Sample.astype_str Sample.str_strip df df 0%nat
              [LineString [(0, 0); (1, 1)]%Q] eq_refl eq_refl eq_refl)
    as [Hany Hroad].
  { discriminate. }
  split; [exact H|]. split; [exact (Hroad H) | exact (Hany (or_introl H))].
Defined.

Lemma load_data_unconvertible_cell_witness :
  let cells := [StrCell "LINESTRING (0 0, 1 1)"; StrCell "A12"; StrCell "fast";
                IntCell 3] in
  let df := {| columns := ["geometry"; "Road Number"; "speed_limit"; "KSI Count"];
               values := [cells] |} in
  raised (Sample.astype_int (fillna (IntCell 0) (nth 2 cells NaN))) = true
  /\ exists m, Sample.load_data df
               = ([st_error ("Error loading data: " ++ m)], GeoDataFrame_new).
Proof.
  intros cells df. split; [reflexivity|].
  apply (@load_data_unconvertible_cell Sample.wkt_loads DataFrame Sample.read_csv
           Sample.astype_int Sample.astype_str Sample.str_strip df df 0%nat 2%nat
           [LineString [(0, 0); (1, 1)]%Q] cells (LineString [(0, 0); (1, 1)]%Q)
           eq_refl eq_refl eq_refl (or_introl eq_refl)).
  - left. reflexivity.
  - reflexivity.
Defined.

Lemma load_data_records_match_rows_witness :
  let geoms := [LineString [(5 # 10, 515 # 10); (6 # 10, 516 # 10)];
                Point (Some (5 # 10, 515 # 10)); LineString []] in
  rows (snd (Sample.load_data sample_table)) <> []
  /\ Forall2 (record_of_cells Sample.astype_int Sample.astype_str Sample.str_strip
                1 2 3)
       (kept_rows (values sample_table) geoms)
       (rows (snd (Sample.load_data sample_table))).
Proof.
  intros geoms.
  assert (H : rows (snd (Sample.load_data sample_table)) <> []) by discriminate.
  split; [exact H|].
  exact (@load_data_records_match_rows Sample.wkt_loads DataFrame Sample.read_csv
           Sample.astype_int Sample.astype_str Sample.str_strip sample_table
           sample_table 0%nat 1%nat 2%nat 3%nat geoms
           eq_refl eq_refl eq_refl eq_refl eq_refl eq_refl H).
Defined.

Lemma load_data_blank_geometry_witness :
  let df := {| columns := ["geometry"; "Road Number"; "speed_limit"; "KSI Count"];
               values := [[StrCell "LINESTRING (0 0, 1 1)"; StrCell "A12"; IntCell 30;
                           IntCell 3];
                          [NaN; StrCell "B1"; IntCell 40; IntCell 1]] |} in
  (forall s, nth 0 [NaN; StrCell "B1"; IntCell 40; IntCell 1] NaN <> StrCell s)
  /\ exists m, Sample.load_data df
               = ([st_error ("Error loading data: " ++ m)], GeoDataFrame_new).
Proof.
  intros df.
  assert (H : forall s, nth 0 [NaN; StrCell "B1"; IntCell 40; IntCell 1] NaN
                        <> StrCell s) by (intros s; discriminate).
  split; [exact H|].
  apply (@load_data_blank_geometry Sample.wkt_loads DataFrame Sample.read_csv
           Sample.astype_int Sample.astype_str Sample.str_strip df df 0%nat
           [NaN; StrCell "B1"; IntCell 40; IntCell 1] eq_refl eq_refl).
  - right. left. reflexivity.
  - exact H.
Defined.

(** ** Step 2: what the test of line 89 decides *)

Section FoldBounds.

Variable R : Q -> Q -> Prop.
Variable f : Q -> Q -> Q.
Hypothesis R_refl : forall a, R a a.
Hypothesis R_trans : forall a b c, R a b -> R b c -> R a c.
Hypothesis f_left : forall a b, R (f a b) a.
Hypothesis f_right : forall a b, R (f a b) b.

Lemma fold_left_bound (l : list Q) (a : Q) :
  R (fold_left f l a) a /\ forall x, In x l -> R (fold_left f l a) x.
Proof.
  revert a. induction l as [|b t IH]; intros a; simpl.
  - split; [apply R_refl | contradiction].
  - destruct (IH (f a b)) as [H1 H2]. split.
    + eapply R_trans; [exact H1 | apply f_left].
    + intros x [<-|Hx]; [eapply R_trans; [exact H1 | apply f_right] | apply H2; exact Hx].
Qed.

Lemma series_fold_from (l : list (option Q)) (a : Q) :
  exists v,
    fold_left (fun acc x => match acc, x with
                            | Some a, Some b => Some (f a b)
                            | None, _ => x
                            | _, None => acc
                            end) l (Some a) = Some v
    /\ R v a /\ forall w, In (Some w) l -> R v w.
Proof.
  revert a. induction l as [|x t IH]; intros a; simpl.
  - exists a. split; [reflexivity|]. split; [apply R_refl|]. intros w [].
  - destruct x as [b|].
    + destruct (IH (f a b)) as [v [E [H1 H2]]]. exists v. split; [exact E|]. split.
      * eapply R_trans; [exact H1 | apply f_left].
      * intros w [Hw|Hw]; [|apply H2; exact Hw].
        injection Hw as <-. eapply R_trans; [exact H1 | apply f_right].
    + destruct (IH a) as [v [E [H1 H2]]]. exists v. split; [exact E|].
      split; [exact H1|]. intros w [Hw|Hw]; [discriminate | apply H2; exact Hw].
Qed.

Lemma series_fold_bound (l : list (option Q)) (v : Q) :
  series_fold f l = Some v ->
  (exists w, In (Some w) l) /\ forall w, In (Some w) l -> R v w.
Proof.
  unfold series_fold. induction l as [|x t IH]; simpl; [discriminate|].
  destruct x as [b|].
  - intros E. destruct (series_fold_from t b) as [v' [E' [H1 H2]]].
    rewrite E' in E. injection E as <-. split; [exists b; left; reflexivity|].
    intros w [Hw|Hw]; [injection Hw as <-; exact H1 | apply H2; exact Hw].
  - intros E. destruct (IH E) as [[w Hw] H]. split; [exists w; right; exact Hw|].
    intros w' [Hw'|Hw']; [discriminate | apply H; exact Hw'].
Qed.

End FoldBounds.

Lemma qmin_le_left (a b : Q) : (qmin a b <= a)%Q.
Proof.
  unfold qmin. destruct (Qle_bool a b) eqn:E; [apply Qle_refl|].
  apply Qlt_le_weak, Qnot_le_lt. intros H. apply Qle_bool_iff in H. congruence.
Qed.

Lemma qmin_le_right (a b : Q) : (qmin a b <= b)%Q.
Proof.
  unfold qmin. destruct (Qle_bool a b) eqn:E; [|apply Qle_refl].
  apply Qle_bool_iff. exact E.
Qed.

Lemma qmax_ge_left (a b : Q) : (a <= qmax a b)%Q.
Proof.
  unfold qmax. destruct (Qle_bool a b) eqn:E; [|apply Qle_refl].
  apply Qle_bool_iff. exact E.
Qed.

Lemma qmax_ge_right (a b : Q) : (b <= qmax a b)%Q.
Proof.
  unfold qmax. destruct (Qle_bool a b) eqn:E; [apply Qle_refl|].
  apply Qlt_le_weak, Qnot_le_lt. intros H. apply Qle_bool_iff in H. congruence.
Qed.

Lemma Qge_trans (a b c : Q) : (b <= a)%Q -> (c <= b)%Q -> (c <= a)%Q.
Proof. intros H1 H2. eapply Qle_trans; eassumption. Qed.

Lemma bounds_enclose (g : Geometry) (b : Q * Q * Q * Q) (x y : Q) :
  bounds g = Some b -> In (x, y) (all_coords g) ->
  (minx b <= x /\ x <= maxx b /\ miny b <= y /\ y <= maxy b)%Q.
Proof.
  unfold bounds. destruct (all_coords g) as [|[x0 y0] t]; [discriminate|].
  intros H Hin. injection H as <-. simpl.
  destruct (fold_left_bound Qle qmin Qle_refl Qle_trans qmin_le_left qmin_le_right
              (map fst t) x0) as [X1 X2].
  destruct (fold_left_bound (fun a b => (b <= a)%Q) qmax Qle_refl Qge_trans
              qmax_ge_left qmax_ge_right (map fst t) x0) as [X3 X4].
  destruct (fold_left_bound Qle qmin Qle_refl Qle_trans qmin_le_left qmin_le_right
              (map snd t) y0) as [Y1 Y2].
  destruct (fold_left_bound (fun a b => (b <= a)%Q) qmax Qle_refl Qge_trans
              qmax_ge_left qmax_ge_right (map snd t) y0) as [Y3 Y4].
  destruct Hin as [Hin|Hin].
  - injection Hin as <- <-. repeat split; assumption.
  - repeat split;
      first [ apply X2; apply (in_map fst) in Hin; exact Hin
            | apply X4; apply (in_map fst) in Hin; exact Hin
            | apply Y2; apply (in_map snd) in Hin; exact Hin
            | apply Y4; apply (in_map snd) in Hin; exact Hin ].
Qed.

Lemma Qltb_true (a b : Q) : Qltb a b = true -> (a < b)%Q.
Proof.
  unfold Qltb. intros H. apply negb_true_iff in H. apply Qnot_le_lt.
  intros Hle. apply Qle_bool_iff in Hle. congruence.
Qed.

Lemma looks_geographic_within_range (gdf : GeoDataFrame) :
  looks_geographic gdf = true -> within_geographic_range gdf.
Proof.
  unfold looks_geographic. rewrite !andb_true_iff. intros [[[H1 H2] H3] H4].
  unfold gt, lt, series_min, series_max in *.
  destruct (series_fold qmin (bounds_column gdf minx)) as [v1|] eqn:E1; [|discriminate].
  destruct (series_fold qmax (bounds_column gdf maxx)) as [v2|] eqn:E2; [|discriminate].
  destruct (series_fold qmin (bounds_column gdf miny)) as [v3|] eqn:E3; [|discriminate].
  destruct (series_fold qmax (bounds_column gdf maxy)) as [v4|] eqn:E4; [|discriminate].
  apply Qltb_true in H1, H2, H3, H4.
  apply (series_fold_bound Qle qmin Qle_refl Qle_trans qmin_le_left qmin_le_right) in E1, E3.
  apply (series_fold_bound (fun a b => (b <= a)%Q) qmax Qle_refl Qge_trans
           qmax_ge_left qmax_ge_right) in E2, E4.
  destruct E1 as [[w Hw] B1]. destruct E2 as [_ B2]. destruct E3 as [_ B3].
  destruct E4 as [_ B4]. split.
  - unfold bounds_column in Hw. apply in_map_iff in Hw. destruct Hw as [r [E Hr]].
    exists r. split; [exact Hr|]. intros Hnil. unfold bounds in E. rewrite Hnil in E.
    discriminate.
  - intros r x y Hr Hin.
    destruct (bounds_nonempty (geometry r)) as [b Hb].
    { intros Hnil. rewrite Hnil in Hin. contradiction. }
    destruct (bounds_enclose _ _ _ Hb Hin) as [Hx1 [Hx2 [Hy1 Hy2]]].
    assert (Hcol : forall proj, In (Some (proj b)) (bounds_column gdf proj)).
    { intros proj. unfold bounds_column. apply in_map_iff. exists r.
      rewrite Hb. split; [reflexivity | exact Hr]. }
    repeat split.
    + eapply Qlt_le_trans; [exact H1|]. eapply Qle_trans; [apply B1, Hcol | exact Hx1].
    + eapply Qle_lt_trans; [|exact H2]. eapply Qle_trans; [exact Hx2 | apply B2, Hcol].
    + eapply Qlt_le_trans; [exact H3|]. eapply Qle_trans; [apply B3, Hcol | exact Hy1].
    + eapply Qle_lt_trans; [|exact H4]. eapply Qle_trans; [exact Hy2 | apply B4, Hcol].
Qed.

(** X8: the test of line 89 holds exactly when every coordinate of the
    frame lies strictly inside longitude (-180,180) and latitude (-90,90)
    and there is at least one coordinate. A frame whose geometries are all
    empty therefore fails it and is taken for projected data. *)
Theorem looks_geographic_iff (gdf : GeoDataFrame) :
  (looks_geographic gdf = true <-> within_geographic_range gdf)
  /\ ((forall r, In r (rows gdf) -> all_coords (geometry r) = []) ->
      looks_geographic gdf = false).
Proof.
  split.
  - split; [apply looks_geographic_within_range | apply within_range_looks_geographic].
  - intros Hempty. destruct (looks_geographic gdf) eqn:E; [|reflexivity].
    apply looks_geographic_within_range in E. destruct E as [[r [Hr Hne]] _].
    exfalso. apply Hne. apply Hempty. exact Hr.
Qed.

Lemma looks_geographic_iff_witness :
  let gdf := frame_of [set_geometry (LineString []) sample_row] in
  (forall r, In r (rows gdf) -> all_coords (geometry r) = [])
  /\ looks_geographic gdf = false.
Proof.
  intros gdf.
  assert (H : forall r, In r (rows gdf) -> all_coords (geometry r) = []).
  { intros r [<-|[]]. reflexivity. }
  split; [exact H|]. exact (proj2 (looks_geographic_iff gdf) H).
Defined.

(** X9: on a frame that carries no CRS yet (every frame [load_data]
    returns), the normalizer never raises and labels its result EPSG:4326;
    the rows come back as they are when the test of line 89 holds, and
    otherwise each geometry is the reprojection of the original from
    EPSG:32631, the attributes untouched. Run once more on its own result,
    it returns that result when it passes the test and raises otherwise,
    because [set_crs] refuses to relabel EPSG:4326 as EPSG:32631. *)
Theorem apply_crs_once_and_again (to_crs : string -> string -> Geometry -> Geometry)
    (gdf : GeoDataFrame) :
  crs gdf = None ->
  exists gdf1,
    apply_crs to_crs gdf = Ok gdf1
    /\ crs gdf1 = Some "EPSG:4326"
    /\ rows gdf1
       = (if looks_geographic gdf then rows gdf
          else map (fun r => set_geometry
                               (to_crs "EPSG:32631" "EPSG:4326" (geometry r)) r)
                   (rows gdf))
    /\ apply_crs to_crs gdf1
       = (if looks_geographic gdf1 then Ok gdf1
          else Raise "The GeoDataFrame already has a CRS which is not equal to the passed CRS.").
Proof.
  intros Hcrs. destruct gdf as [c l]. simpl in Hcrs. subst c.
  unfold apply_crs at 1.
  destruct (looks_geographic {| crs := None; rows := l |}) eqn:E.
  - eexists. split; [reflexivity|]. split; [reflexivity|]. split; [reflexivity|].
    unfold apply_crs.
    destruct (looks_geographic {| crs := Some "EPSG:4326"; rows := rows _ |});
      reflexivity.
  - eexists. split; [reflexivity|]. split; [reflexivity|]. split; [reflexivity|].
    unfold apply_crs.
    destruct (looks_geographic {| crs := Some "EPSG:4326"; rows := _ |}); reflexivity.
Qed.

Lemma apply_crs_once_and_again_witness :
  let gdf := frame_of [set_geometry (LineString []) sample_row] in
  crs gdf = None
  /\ exists gdf1,
      apply_crs Sample.to_crs gdf = Ok gdf1
      /\ crs gdf1 = Some "EPSG:4326"
      /\ rows gdf1
         = (if looks_geographic gdf then rows gdf
            else map (fun r => set_geometry
                                 (Sample.to_crs "EPSG:32631" "EPSG:4326" (geometry r)) r)
                     (rows gdf))
      /\ apply_crs Sample.to_crs gdf1
         = (if looks_geographic gdf1 then Ok gdf1
            else Raise "The GeoDataFrame already has a CRS which is not equal to the passed CRS.").
Proof.
  intros gdf. split; [reflexivity|].
  exact (apply_crs_once_and_again Sample.to_crs gdf eq_refl).
Defined.

(** ** Step 4: the options and the selection of roads and speeds *)

Section Unique.

Variable A : Type.
Variable eqb : A -> A -> bool.
Hypothesis eqb_eq : forall x y, eqb x y = true <-> x = y.

Lemma unique_In (l : list A) (a : A) : In a (unique eqb l) <-> In a l.
Proof.
  induction l as [|x t IH]; simpl; [reflexivity|].
  rewrite filter_In, IH. split.
  - intros [H|[H _]]; auto.
  - intros [H|H]; [left; exact H|].
    destruct (eqb a x) eqn:E.
    + left. symmetry. apply eqb_eq. exact E.
    + right. split; [exact H | reflexivity].
Qed.

Lemma unique_NoDup (l : list A) : NoDup (unique eqb l).
Proof.
  induction l as [|x t IH]; simpl; constructor.
  - rewrite filter_In. intros [_ H].
    assert (E : eqb x x = true) by (apply eqb_eq; reflexivity).
    rewrite E in H. discriminate.
  - apply NoDup_filter. exact IH.
Qed.

Lemma isin_In (values : list A) (x : A) : isin eqb values x = true <-> In x values.
Proof.
  unfold isin. rewrite existsb_exists. split.
  - intros [y [Hy E]]. apply eqb_eq in E. subst. exact Hy.
  - intros H. exists x. split; [exact H | apply eqb_eq; reflexivity].
Qed.

End Unique.

Lemma Sorted_strict {A} (R : A -> A -> Prop) (l : list A) :
  Sorted R l -> NoDup l -> Sorted (fun a b => R a b /\ a <> b) l.
Proof.
  induction 1 as [|a t Hs IH Hd]; intros Hnd; constructor.
  - apply IH. inversion Hnd; assumption.
  - destruct Hd as [|b t' Hab]; constructor. split; [exact Hab|].
    intros ->. inversion Hnd as [|? ? Hnot _]. apply Hnot. left. reflexivity.
Qed.

Lemma Sorted_weaken {A} (R R' : A -> A -> Prop) (l : list A) :
  (forall a b, R a b -> R' a b) -> Sorted R l -> Sorted R' l.
Proof.
  intros H. induction 1 as [|a t Hs IH Hd]; constructor; [exact IH|].
  destruct Hd; constructor. apply H. assumption.
Qed.

Lemma string_leb_neq_ltb (a b : string) :
  String.leb a b = true /\ a <> b -> String.ltb a b = true.
Proof.
  unfold String.leb, String.ltb. intros [Hle Hne].
  destruct (String.compare a b) eqn:E; [|reflexivity|discriminate].
  exfalso. apply Hne. apply String.compare_eq_iff. exact E.
Qed.

Lemma select_id (p : Row -> bool) (gdf : GeoDataFrame) :
  (forall r, In r (rows gdf) -> p r = true) -> select p gdf = gdf.
Proof.
  destruct gdf as [c l]. unfold select. simpl. intros H. f_equal.
  induction l as [|x t IH]; simpl; [reflexivity|].
  rewrite (H x (or_introl eq_refl)). f_equal. apply IH.
  intros r Hr. apply H. right. exact Hr.
Qed.

Lemma all_road_numbers_In (gdf : GeoDataFrame) (x : string) :
  In x (all_road_numbers gdf) <-> exists r, In r (rows gdf) /\ Road_Number r = x.
Proof.
  unfold all_road_numbers. split.
  - intros H. apply (Permutation_in _ (Permutation_sym (StringSort.Permuted_sort _))) in H.
    apply (proj1 (unique_In String.eqb String.eqb_eq _ _)) in H. apply in_map_iff in H.
    destruct H as [r [E Hr]]. exists r. auto.
  - intros [r [Hr E]]. apply (Permutation_in _ (StringSort.Permuted_sort _)).
    apply (unique_In String.eqb String.eqb_eq). apply in_map_iff. exists r. auto.
Qed.

Lemma speed_limits_In (gdf : GeoDataFrame) (z : Z) :
  In z (speed_limits gdf) <-> exists r, In r (rows gdf) /\ speed_limit r = z.
Proof.
  unfold speed_limits. split.
  - intros H. apply (Permutation_in _ (Permutation_sym (IntSort.Permuted_sort _))) in H.
    apply (proj1 (unique_In Z.eqb Z.eqb_eq _ _)) in H. apply in_map_iff in H.
    destruct H as [r [E Hr]]. exists r. auto.
  - intros [r [Hr E]]. apply (Permutation_in _ (IntSort.Permuted_sort _)).
    apply (unique_In Z.eqb Z.eqb_eq). apply in_map_iff. exists r. auto.
Qed.

(** X10: the options offered in the sidebar are the road numbers, and the
    speed limits, that occur in the frame, each listed once, in strictly
    increasing order. *)
Theorem sidebar_options_sorted_distinct (gdf : GeoDataFrame) :
  (Sorted (fun a b => String.ltb a b = true) (all_road_numbers gdf)
   /\ NoDup (all_road_numbers gdf)
   /\ forall x, In x (all_road_numbers gdf)
                <-> exists r, In r (rows gdf) /\ Road_Number r = x)
  /\ (Sorted Z.lt (speed_limits gdf)
      /\ NoDup (speed_limits gdf)
      /\ forall z, In z (speed_limits gdf)
                   <-> exists r, In r (rows gdf) /\ speed_limit r = z).
Proof.
  assert (Hnd1 : NoDup (all_road_numbers gdf)).
  { eapply Permutation_NoDup; [apply StringSort.Permuted_sort|].
    apply unique_NoDup. apply String.eqb_eq. }
  assert (Hnd2 : NoDup (speed_limits gdf)).
  { eapply Permutation_NoDup; [apply IntSort.Permuted_sort|].
    apply unique_NoDup. apply Z.eqb_eq. }
  split; (split; [|split]); try assumption.
  - eapply Sorted_weaken; [apply string_leb_neq_ltb|].
    apply Sorted_strict; [|exact Hnd1]. apply StringSort.Sorted_sort.
  - apply all_road_numbers_In.
  - eapply Sorted_weaken; [|apply Sorted_strict; [apply IntSort.Sorted_sort|exact Hnd2]].
    intros a b [Hle Hne]. apply Z.leb_le in Hle. lia.
  - apply speed_limits_In.
Qed.

(** X11: a record passes line 122 exactly when its road number and its
    speed limit are both among the selected values; the records that pass
    keep their order; an empty selection of roads, or of speeds, leaves no
    record. *)
Theorem filter_attributes_membership (roads : list string) (speeds : list Z)
    (gdf : GeoDataFrame) :
  (forall r, In r (rows (filter_attributes roads speeds gdf))
             <-> In r (rows gdf) /\ In (Road_Number r) roads
                 /\ In (speed_limit r) speeds)
  /\ rows (filter_attributes roads speeds gdf)
     = filter (fun r => isin String.eqb roads (Road_Number r)
                        && isin Z.eqb speeds (speed_limit r)) (rows gdf)
  /\ rows (filter_attributes [] speeds gdf) = []
  /\ rows (filter_attributes roads [] gdf) = [].
Proof.
  split; [|split; [|split]].
  - intros r. rewrite filter_attributes_select, select_In, andb_true_iff.
    rewrite (isin_In String.eqb String.eqb_eq), (isin_In Z.eqb Z.eqb_eq). tauto.
  - rewrite filter_attributes_select. reflexivity.
  - rewrite filter_attributes_select. simpl.
    induction (rows gdf) as [|x t IH]; simpl; [reflexivity | exact IH].
  - rewrite filter_attributes_select. simpl.
    induction (rows gdf) as [|x t IH]; simpl; [reflexivity|].
    rewrite andb_false_r. exact IH.
Qed.

(** X12: with "Select All Road Numbers" ticked the road part of line 122
    lets every record through, likewise for the speeds, and with both
    ticked the frame comes out unchanged. *)
Theorem select_all_keeps_everything (sb : Sidebar) (gdf : GeoDataFrame) :
  (all_roads sb = true ->
   forall speeds,
     filter_attributes (selected_roads sb gdf) speeds gdf
     = select (fun r => isin Z.eqb speeds (speed_limit r)) gdf)
  /\ (all_speeds sb = true ->
      forall roads,
        filter_attributes roads (selected_speed sb gdf) gdf
        = select (fun r => isin String.eqb roads (Road_Number r)) gdf)
  /\ (all_roads sb = true -> all_speeds sb = true ->
      filter_attributes (selected_roads sb gdf) (selected_speed sb gdf) gdf = gdf).
Proof.
  assert (Hr : all_roads sb = true ->
               forall r, In r (rows gdf) ->
                         isin String.eqb (selected_roads sb gdf) (Road_Number r) = true).
  { intros H r Hin. unfold selected_roads. rewrite H.
    apply (isin_In String.eqb String.eqb_eq). apply all_road_numbers_In. exists r. auto. }
  assert (Hs : all_speeds sb = true ->
               forall r, In r (rows gdf) ->
                         isin Z.eqb (selected_speed sb gdf) (speed_limit r) = true).
  { intros H r Hin. unfold selected_speed. rewrite H.
    apply (isin_In Z.eqb Z.eqb_eq). apply speed_limits_In. exists r. auto. }
  split; [|split].
  - intros H speeds. rewrite filter_attributes_select. unfold select. f_equal.
    apply filter_ext_in. intros r Hin. rewrite (Hr H r Hin). reflexivity.
  - intros H roads. rewrite filter_attributes_select. unfold select. f_equal.
    apply filter_ext_in. intros r Hin. rewrite (Hs H r Hin). apply andb_true_r.
  - intros H1 H2. rewrite filter_attributes_select. apply select_id.
    intros r Hin. rewrite (Hr H1 r Hin), (Hs H2 r Hin). reflexivity.
Qed.

Lemma select_all_keeps_everything_witness :
  let gdf := frame_of [sample_row; set_geometry (LineString []) sample_row] in
  all_roads Sample.sidebar_all = true /\ all_speeds Sample.sidebar_all = true
  /\ filter_attributes (selected_roads Sample.sidebar_all gdf)
       (selected_speed Sample.sidebar_all gdf) gdf = gdf
  /\ filter_attributes (selected_roads Sample.sidebar_all gdf) [40] gdf
     = select (fun r => isin Z.eqb [40] (speed_limit r)) gdf
  /\ filter_attributes ["B1"] (selected_speed Sample.sidebar_all gdf) gdf
     = select (fun r => isin String.eqb ["B1"] (Road_Number r)) gdf.
Proof.
  intros gdf. split; [reflexivity|]. split; [reflexivity|].
  destruct (select_all_keeps_everything Sample.sidebar_all gdf) as [H1 [H2 H3]].
  split; [exact (H3 eq_refl eq_refl)|].
  split; [exact (H1 eq_refl [40]) | exact (H2 eq_refl ["B1"])].
Defined.

(** ** Step 5: the three buckets together *)

Lemma filter_lengths_add {A} (p1 p2 p3 p : A -> bool) (l : list A) :
  (forall x, (Nat.b2n (p1 x) + Nat.b2n (p2 x) + Nat.b2n (p3 x) = Nat.b2n (p x))%nat) ->
  (List.length (filter p1 l) + List.length (filter p2 l) + List.length (filter p3 l)
   = List.length (filter p l))%nat.
Proof.
  intros H. induction l as [|x t IH]; simpl; [reflexivity|].
  specialize (H x).
  destruct (p1 x), (p2 x), (p3 x), (p x); simpl in *; try discriminate H; lia.
Qed.

(** X13: with the three buckets ticked the severity filter keeps exactly
    the records whose KSI count is at least 1 (a negative count, which
    step 3 lets through, is dropped here); the three buckets taken one at a
    time split those records without overlap; and a frame whose counts are
    all at least 1 comes out unchanged. *)
Theorem buckets_partition_positive_counts (gdf : GeoDataFrame) :
  (forall r, In r (rows (filter_ksi true true true gdf))
             <-> In r (rows gdf) /\ 1 <= KSI_Count r)
  /\ (List.length (rows (filter_ksi true false false gdf))
      + List.length (rows (filter_ksi false true false gdf))
      + List.length (rows (filter_ksi false false true gdf))
      = List.length (rows (filter_ksi true true true gdf)))%nat
  /\ ((forall r, In r (rows gdf) -> 1 <= KSI_Count r) ->
      filter_ksi true true true gdf = gdf).
Proof.
  assert (Hall : forall r, ksi_keeps true true true r = true <-> 1 <= KSI_Count r).
  { intros r. rewrite ksi_keeps_spec by reflexivity. unfold in_enabled_bucket.
    split; [intros [[_ H]|[[_ H]|[_ H]]]; lia|].
    intros H. destruct (Z.le_gt_cases (KSI_Count r) 4); [left; split; [reflexivity|lia]|].
    right. destruct (Z.le_gt_cases (KSI_Count r) 7);
      [left; split; [reflexivity|lia] | right; split; [reflexivity|lia]]. }
  split; [|split].
  - intros r. rewrite filter_ksi_select, select_In, Hall. reflexivity.
  - rewrite !filter_ksi_select. unfold select. simpl. apply filter_lengths_add.
    intros r. unfold ksi_keeps. simpl.
    destruct (KSI_Count r >=? 1) eqn:E1, (KSI_Count r <=? 4) eqn:E4,
      (KSI_Count r >=? 5) eqn:E5, (KSI_Count r <=? 7) eqn:E7,
      (KSI_Count r >=? 8) eqn:E8; simpl; try reflexivity; exfalso;
      rewrite ?Z.geb_le, ?Z.leb_le, ?Z.geb_leb, ?Z.leb_gt in *; lia.
  - intros H. rewrite filter_ksi_select. apply select_id.
    intros r Hr. apply Hall. apply H. exact Hr.
Qed.

Lemma buckets_partition_positive_counts_witness :
  let gdf := frame_of [sample_row] in
  (forall r, In r (rows gdf) -> 1 <= KSI_Count r)
  /\ filter_ksi true true true gdf = gdf.
Proof.
  intros gdf.
  assert (H : forall r, In r (rows gdf) -> 1 <= KSI_Count r).
  { intros r [<-|[]]. simpl. lia. }
  split; [exact H|].
  exact (proj2 (proj2 (buckets_partition_positive_counts gdf)) H).
Defined.

(** X14: as long as one bucket is ticked, ticking more buckets never
    removes a record from the result of the severity filter. *)
Theorem filter_ksi_monotone (f_1_4 f_5_7 f_8 g_1_4 g_5_7 g_8 : bool)
    (gdf : GeoDataFrame) (r : Row) :
  f_1_4 || f_5_7 || f_8 = true ->
  (f_1_4 = true -> g_1_4 = true) ->
  (f_5_7 = true -> g_5_7 = true) ->
  (f_8 = true -> g_8 = true) ->
  In r (rows (filter_ksi f_1_4 f_5_7 f_8 gdf)) ->
  In r (rows (filter_ksi g_1_4 g_5_7 g_8 gdf)).
Proof.
  intros Hsome H1 H2 H3. rewrite !filter_ksi_select, !select_In.
  intros [Hin Hk]. split; [exact Hin|].
  assert (Hsome' : g_1_4 || g_5_7 || g_8 = true).
  { destruct f_1_4, f_5_7, f_8; try discriminate;
      rewrite ?(H1 eq_refl), ?(H2 eq_refl), ?(H3 eq_refl);
      rewrite ?orb_true_r; reflexivity. }
  apply (ksi_keeps_spec _ _ _ _ Hsome) in Hk. apply (ksi_keeps_spec _ _ _ _ Hsome').
  unfold in_enabled_bucket in *.
  destruct Hk as [[E H]|[[E H]|[E H]]]; auto.
Qed.

Lemma filter_ksi_monotone_witness :
  let gdf := frame_of [sample_row] in
  true || false || false = true
  /\ In sample_row (rows (filter_ksi true false false gdf))
  /\ In sample_row (rows (filter_ksi true false true gdf)).
Proof.
  intros gdf. split; [reflexivity|].
  assert (H : In sample_row (rows (filter_ksi true false false gdf))).
  { left. reflexivity. }
  split; [exact H|].
  apply (@filter_ksi_monotone true false false true false true gdf sample_row
           eq_refl (fun _ => eq_refl) (fun E => E) (fun E => match
             Bool.diff_false_true E with end) H).
Defined.

(** ** Step 6: what the smoother can return *)

Section SmootherShape.

Variable Tck : Type.
Variable splprep : list (list Q) -> Q -> py (Tck * list Q).
Variable splev : list Q -> Tck -> py (list (list Q)).

(** X15: whatever scipy does, [smooth_geometry] returns either its
    argument or, for a line of more than 2 vertices only, a new LineString
    that never has a single vertex (and has [num_points] of them when
    [splev] keeps to its documented shape). In particular it never changes
    the type of a geometry and leaves every shape but a line alone. *)
Theorem smooth_geometry_result (geom : Geometry) (s : Q) (n : Z) :
  (smooth_geometry splprep splev geom s n = geom
   \/ exists cs cs',
       geom = LineString cs /\ (2 < List.length cs)%nat
       /\ smooth_geometry splprep splev geom s n = LineString cs'
       /\ List.length cs' <> 1%nat
       /\ (splev_shape splprep splev -> Z.of_nat (List.length cs') = n))
  /\ geom_type (smooth_geometry splprep splev geom s n) = geom_type geom
  /\ (geom_type geom <> "LineString" ->
      smooth_geometry splprep splev geom s n = geom).
Proof.
  assert (H : smooth_geometry splprep splev geom s n = geom
              \/ exists cs cs',
                  geom = LineString cs /\ (2 < List.length cs)%nat
                  /\ smooth_geometry splprep splev geom s n = LineString cs'
                  /\ List.length cs' <> 1%nat
                  /\ (splev_shape splprep splev -> Z.of_nat (List.length cs') = n)).
  { destruct (String.eqb_spec (geom_type geom) "LineString") as [E|E].
    2:{ left. apply smooth_geometry_other. exact E. }
    destruct geom as [c|cs|sh ho|ps|ls|ps|gs]; try discriminate E.
    destruct (Nat.le_gt_cases (List.length cs) 2) as [Hshort|Hlong].
    { left. apply smooth_geometry_short. exact Hshort. }
    unfold smooth_geometry.
    destruct (smooth_geometry_try splprep splev (LineString cs) s n) as [g|e] eqn:Htry;
      [|left; reflexivity].
    right. simpl.
    pose proof Htry as Htry'. rewrite smooth_geometry_try_long in Htry' by exact Hlong.
    destruct (splprep [map fst cs; map snd cs] s) as [[tck u]|e]; [|discriminate].
    cbn [Py.bind] in Htry'.
    destruct (linspace 0%Q 1%Q n) as [unew|e]; [|discriminate]. cbn [Py.bind] in Htry'.
    destruct (splev unew tck) as [out|e]; [|discriminate]. cbn [Py.bind] in Htry'.
    exists cs, (combine (nth 0 out []) (nth 1 out [])).
    split; [reflexivity|]. split; [exact Hlong|].
    pose proof (new_LineString_inv _ Htry') as Hg. split; [exact Hg|]. split.
    - intros Hone. destruct (combine (nth 0 out []) (nth 1 out [])) as [|c [|d t]];
        simpl in Hone, Htry'; discriminate.
    - intros Hshape.
      destruct (@smooth_geometry_try_count _ _ _ _ _ _ _ Hshape Hlong Htry)
        as [cs' [E' Hn]].
      rewrite Hg in E'. injection E' as <-. exact Hn. }
  split; [exact H|]. split.
  - destruct H as [->|[cs [cs' [-> [_ [-> _]]]]]]; reflexivity.
  - apply smooth_geometry_other.
Qed.

End SmootherShape.

Lemma smooth_geometry_result_witness :
  let g := LineString [Sample.pt 0 0; Sample.pt 1 2; Sample.pt 2 0; Sample.pt 3 2;
                       Sample.pt 4 0] in
  geom_type (Point None) <> "LineString"
  /\ Sample.smooth_geometry (Point None) 0%Q 500 = Point None
  /\ geom_type (Sample.smooth_geometry g 0%Q 9) = geom_type g.
Proof.
  intros g.
  assert (H : geom_type (Point None) <> "LineString") by discriminate.
  split; [exact H|]. split.
  - exact (proj2 (proj2 (smooth_geometry_result Sample.splprep Sample.splev
                           (Point None) 0%Q 500)) H).
  - exact (proj1 (proj2 (smooth_geometry_result Sample.splprep Sample.splev g 0%Q 9))).
Defined.

(** ** The whole run *)

Lemma filter_filter_andb {A} (p q : A -> bool) (l : list A) :
  filter p (filter q l) = filter (fun x => q x && p x) l.
Proof.
  induction l as [|x t IH]; simpl; [reflexivity|].
  destruct (q x); simpl; [destruct (p x)|]; rewrite IH; reflexivity.
Qed.

Lemma apply_crs_fresh (to_crs : string -> string -> Geometry -> Geometry)
    (gdf : GeoDataFrame) :
  crs gdf = None ->
  exists gdf1,
    apply_crs to_crs gdf = Ok gdf1
    /\ (rows gdf1 = rows gdf
        \/ rows gdf1 = map (fun r => set_geometry
                                       (to_crs "EPSG:32631" "EPSG:4326" (geometry r)) r)
                           (rows gdf)).
Proof.
  intros Hcrs. destruct gdf as [c l]. simpl in Hcrs. subst c. unfold apply_crs.
  destruct (looks_geographic {| crs := None; rows := l |}); eexists;
    (split; [reflexivity|]); [left | right]; reflexivity.
Qed.

Lemma get_ksi_color_buckets (k : Z) :
  (1 <= k <= 4 -> get_ksi_color k = "yellow")
  /\ (5 <= k <= 7 -> get_ksi_color k = "orange")
  /\ (8 <= k -> get_ksi_color k = "red").
Proof.
  unfold get_ksi_color.
  destruct (1 <=? k) eqn:H1, (k <=? 4) eqn:H4, (5 <=? k) eqn:H5, (k <=? 7) eqn:H7;
    simpl; repeat split; intros H; try reflexivity; exfalso;
    rewrite ?Z.leb_le, ?Z.leb_gt in *; lia.
Qed.

Section SmootherType.

Variable Tck : Type.
Variable splprep : list (list Q) -> Q -> py (Tck * list Q).
Variable splev : list Q -> Tck -> py (list (list Q)).

Lemma smooth_geometry_keeps_type (geom : Geometry) (s : Q) (n : Z) :
  geom_type (smooth_geometry splprep splev geom s n) = geom_type geom.
Proof.
  unfold smooth_geometry, smooth_geometry_try.
  destruct (String.eqb_spec (geom_type geom) "LineString") as [E|E]; [|reflexivity].
  destruct geom as [c|cs|sh ho|ps|ls|ps|gs]; try discriminate E. simpl.
  destruct (2 <? Z.of_nat (List.length cs)); [|reflexivity].
  destruct (splprep [map fst cs; map snd cs] s) as [[tck u]|e]; [|reflexivity].
  cbn [Py.bind].
  destruct (linspace 0%Q 1%Q n) as [unew|e]; [|reflexivity]. cbn [Py.bind].
  destruct (splev unew tck) as [out|e]; [|reflexivity]. cbn [Py.bind].
  destruct (new_LineString (combine (nth 0 out []) (nth 1 out []))) as [g|e] eqn:Hn;
    [|reflexivity].
  apply new_LineString_inv in Hn. subst g. reflexivity.
Qed.

End SmootherType.

Section RunFacts.

Variable wkt_loads : string -> py Geometry.
Variable intersects : Geometry -> Geometry -> bool.
Variable Tck : Type.
Variable splprep : list (list Q) -> Q -> py (Tck * list Q).
Variable splev : list Q -> Tck -> py (list (list Q)).
Variable to_crs : string -> string -> Geometry -> Geometry.
Variable UploadedFile : Type.
Variable read_csv : UploadedFile -> py DataFrame.
Variable astype_int : cell -> py Z.
Variable astype_str : cell -> string.
Variable str_strip : string -> string.

Lemma load_data_empty_cases (file : UploadedFile) :
  (empty (snd (load_data wkt_loads read_csv astype_int astype_str str_strip file)) = true
   /\ exists m, fst (load_data wkt_loads read_csv astype_int astype_str str_strip file)
                = [st_error m])
  \/ (empty (snd (load_data wkt_loads read_csv astype_int astype_str str_strip file))
      = false
      /\ fst (load_data wkt_loads read_csv astype_int astype_str str_strip file) = []
      /\ crs (snd (load_data wkt_loads read_csv astype_int astype_str str_strip file))
         = None).
Proof.
  destruct (load_data_inv wkt_loads read_csv astype_int astype_str str_strip file)
    as [[m ->]|[df [col [geoms [road [speed [ksi
          [_ [_ [_ [Hne [Hr [Hs [Hk ->]]]]]]]]]]]]]].
  - left. split; [reflexivity | exists m; reflexivity].
  - right. split; [|split; reflexivity]. unfold empty. simpl.
    destruct (line_rows (values df) geoms) as [|r0 df2]; [congruence|].
    destruct road, speed, ksi; simpl in *; try discriminate. reflexivity.
Qed.

(** What a run with an upload comes to: the error of the load, or the
    rendering of the filtered frame of some normalized frame. *)
Lemma run_cases (sb : Sidebar) (file : UploadedFile) :
  (rows (snd (load_data wkt_loads read_csv astype_int astype_str str_strip file)) = []
   /\ exists m,
       run wkt_loads intersects splprep splev to_crs read_csv astype_int astype_str
           str_strip sb (Some file) = [st_error m]
       /\ fst (load_data wkt_loads read_csv astype_int astype_str str_strip file)
          = [st_error m])
  \/ exists gdf1,
      rows (snd (load_data wkt_loads read_csv astype_int astype_str str_strip file))
      <> []
      /\ apply_crs to_crs
           (snd (load_data wkt_loads read_csv astype_int astype_str str_strip file))
         = Ok gdf1
      /\ run wkt_loads intersects splprep splev to_crs read_csv astype_int astype_str
             str_strip sb (Some file)
         = render (filtered intersects splprep splev sb gdf1).
Proof.
  unfold run.
  destruct (load_data_empty_cases file) as [[He [m Hm]]|[He [Hs Hc]]].
  - left.
    destruct (load_data wkt_loads read_csv astype_int astype_str str_strip file)
      as [shown gdf]. simpl in *. rewrite He. simpl. subst shown. split.
    + unfold empty in He. destruct (rows gdf); [reflexivity | discriminate].
    + exists m. split; reflexivity.
  - right.
    destruct (load_data wkt_loads read_csv astype_int astype_str str_strip file)
      as [shown gdf]. simpl in *. rewrite He. simpl. subst shown.
    destruct (apply_crs_fresh to_crs gdf Hc) as [gdf1 [E _]].
    exists gdf1. rewrite E. split; [|split; reflexivity].
    unfold empty in He. destruct (rows gdf); [discriminate He | discriminate].
Qed.

Lemma filtered_rows (sb : Sidebar) (gdf : GeoDataFrame) :
  let gdf3 := filter_nonzero (filter_bbox intersects gdf) in
  rows (filtered intersects splprep splev sb gdf)
  = map (fun r => set_geometry (smooth_geometry splprep splev (geometry r) 0%Q 500) r)
      (filter (survives intersects (selected_roads sb gdf3) (selected_speed sb gdf3)
                 (filter_1_4 sb) (filter_5_7 sb) (filter_8 sb))
         (rows gdf)).
Proof.
  intros gdf3. unfold filtered. fold gdf3. rewrite smooth_rows. f_equal.
  rewrite filter_ksi_select, filter_attributes_select. unfold gdf3 at 3.
  rewrite filter_nonzero_select, filter_bbox_select. unfold select. simpl.
  rewrite !filter_filter_andb. apply filter_ext. intros r. unfold survives.
  rewrite !andb_assoc. reflexivity.
Qed.

(** X16: steps 3 to 6 amount to one selection followed by the smoothing:
    the filtered frame holds, in the order of the input, the smoothed copy
    of every record that intersects the rectangle, has a non-zero count and
    passes the road, speed and bucket selections; nothing else, nothing
    twice, and the CRS label is kept. The features handed to the map carry
    the colour of the count of their record. *)
Theorem filtered_is_selection_then_smoothing (sb : Sidebar) (gdf : GeoDataFrame) :
  let gdf3 := filter_nonzero (filter_bbox intersects gdf) in
  let keep := survives intersects (selected_roads sb gdf3) (selected_speed sb gdf3)
                (filter_1_4 sb) (filter_5_7 sb) (filter_8 sb) in
  rows (filtered intersects splprep splev sb gdf)
  = map (fun r => set_geometry (smooth_geometry splprep splev (geometry r) 0%Q 500) r)
      (filter keep (rows gdf))
  /\ features (filtered intersects splprep splev sb gdf)
     = map (fun r => (set_geometry (smooth_geometry splprep splev (geometry r) 0%Q 500) r,
                      get_ksi_color (KSI_Count r)))
         (filter keep (rows gdf))
  /\ crs (filtered intersects splprep splev sb gdf) = crs gdf
  /\ (List.length (rows (filtered intersects splprep splev sb gdf))
      <= List.length (rows gdf))%nat.
Proof.
  intros gdf3 keep. pose proof (filtered_rows sb gdf) as H. fold gdf3 keep in H.
  split; [exact H|]. split; [|split].
  - unfold features. rewrite H, map_map. reflexivity.
  - unfold filtered, smooth. rewrite filter_ksi_select, filter_attributes_select,
      filter_nonzero_select, filter_bbox_select.
    match goal with |- crs (if ?b then _ else _) = _ => destruct b end; reflexivity.
  - rewrite H, length_map. apply filter_length_le.
Qed.


End RunFacts.

Section RunInvariants.

Variable wkt_loads : string -> py Geometry.
Variable intersects : Geometry -> Geometry -> bool.
Variable Tck : Type.
Variable splprep : list (list Q) -> Q -> py (Tck * list Q).
Variable splev : list Q -> Tck -> py (list (list Q)).
Variable to_crs : string -> string -> Geometry -> Geometry.
Variable UploadedFile : Type.
Variable read_csv : UploadedFile -> py DataFrame.
Variable astype_int : cell -> py Z.
Variable astype_str : cell -> string.
Variable str_strip : string -> string.

Lemma run_drawn (sb : Sidebar) (uploaded_file : option UploadedFile)
    (fs : list (Row * string)) :
  In (folium_static fs)
     (run wkt_loads intersects splprep splev to_crs read_csv astype_int astype_str
          str_strip sb uploaded_file) ->
  exists file gdf1,
    uploaded_file = Some file
    /\ apply_crs to_crs
         (snd (load_data wkt_loads read_csv astype_int astype_str str_strip file))
       = Ok gdf1
    /\ fs = features (filtered intersects splprep splev sb gdf1).
Proof.
  destruct uploaded_file as [file|]; [|intros [H|[]]; discriminate].
  destruct (run_cases wkt_loads intersects splprep splev to_crs read_csv astype_int
              astype_str str_strip sb file) as [[_ [m [-> _]]]|[gdf1 [_ [Hcrs ->]]]].
  - intros [H|[]]. discriminate.
  - unfold render.
    destruct (empty (filtered intersects splprep splev sb gdf1)); simpl;
      intros [H|[]]; [discriminate|].
    injection H as <-. exists file, gdf1. repeat split. exact Hcrs.
Qed.

Lemma drawn_record (sb : Sidebar) (gdf1 : GeoDataFrame) (f : Row * string) :
  In f (features (filtered intersects splprep splev sb gdf1)) ->
  exists r0,
    In r0 (rows gdf1)
    /\ ksi_keeps (filter_1_4 sb) (filter_5_7 sb) (filter_8 sb) r0 = true
    /\ f = (set_geometry (smooth_geometry splprep splev (geometry r0) 0%Q 500) r0,
            get_ksi_color (KSI_Count r0)).
Proof.
  unfold features. rewrite filtered_rows, map_map. intros H.
  apply in_map_iff in H. destruct H as [r0 [E H]]. apply filter_In in H.
  destruct H as [Hin Hs]. exists r0. split; [exact Hin|].
  unfold survives in Hs. apply andb_true_iff in Hs. destruct Hs as [_ Hk].
  split; [exact Hk|]. symmetry. exact E.
Qed.

(** X18: on every run with at least one bucket ticked, each segment on the
    map is drawn in the colour of the legend for a bucket that is ticked
    and holds its count: yellow for 1 to 4, orange for 5 to 7, red for 8
    and more. *)
Theorem drawn_colour_matches_bucket (sb : Sidebar) (uploaded_file : option UploadedFile)
    (fs : list (Row * string)) (f : Row * string) :
  In (folium_static fs)
     (run wkt_loads intersects splprep splev to_crs read_csv astype_int astype_str
          str_strip sb uploaded_file) ->
  In f fs ->
  filter_1_4 sb || filter_5_7 sb || filter_8 sb = true ->
  (filter_1_4 sb = true /\ 1 <= KSI_Count (fst f) <= 4 /\ snd f = "yellow")
  \/ (filter_5_7 sb = true /\ 5 <= KSI_Count (fst f) <= 7 /\ snd f = "orange")
  \/ (filter_8 sb = true /\ 8 <= KSI_Count (fst f) /\ snd f = "red").
Proof.
  intros Hrun Hf Hsome. destruct (run_drawn _ _ _ Hrun) as [file [gdf1 [_ [_ ->]]]].
  destruct (drawn_record _ _ _ Hf) as [r0 [_ [Hk ->]]]. simpl.
  apply (ksi_keeps_spec _ _ _ _ Hsome) in Hk.
  destruct (get_ksi_color_buckets (KSI_Count r0)) as [Hy [Ho Hr]].
  destruct Hk as [[E H]|[[E H]|[E H]]].
  - left. split; [exact E|]. split; [exact H | exact (Hy H)].
  - right. left. split; [exact E|]. split; [exact H | exact (Ho H)].
  - right. right. split; [exact E|]. split; [exact H | exact (Hr H)].
Qed.

(** X19: when the reprojection keeps the type of a shape, as a coordinate
    transform does, every segment handed to the map on any run is a
    LineString: the loader lets nothing else in, and neither the filters nor
    the smoother change the type. *)
Theorem drawn_geometries_are_lines (sb : Sidebar) (uploaded_file : option UploadedFile)
    (fs : list (Row * string)) (f : Row * string) :
  (forall src dst g, geom_type (to_crs src dst g) = geom_type g) ->
  In (folium_static fs)
     (run wkt_loads intersects splprep splev to_crs read_csv astype_int astype_str
          str_strip sb uploaded_file) ->
  In f fs ->
  exists cs, geometry (fst f) = LineString cs.
Proof.
  intros Hto Hrun Hf. destruct (run_drawn _ _ _ Hrun) as [file [gdf1 [_ [Hcrs ->]]]].
  destruct (drawn_record _ _ _ Hf) as [r0 [Hin [_ ->]]]. simpl.
  apply is_LineString_inv. unfold is_LineString.
  rewrite smooth_geometry_keeps_type.
  assert (Hloaded : forall r,
             In r (rows (snd (load_data wkt_loads read_csv astype_int astype_str
                                str_strip file))) ->
             (geom_type (geometry r) =? "LineString")%string = true).
  { intros r Hr. apply load_data_row_is_line in Hr. exact (proj1 Hr). }
  destruct (apply_crs_fresh to_crs _
              (load_data_crs wkt_loads read_csv astype_int astype_str str_strip file))
    as [g' [E Hrows]].
  rewrite Hcrs in E. injection E as <-. destruct Hrows as [Hrows|Hrows];
    rewrite Hrows in Hin.
  - apply Hloaded. exact Hin.
  - apply in_map_iff in Hin. destruct Hin as [r' [<- Hr']]. simpl.
    rewrite Hto. apply Hloaded. exact Hr'.
Qed.

End RunInvariants.


Lemma drawn_colour_matches_bucket_witness :
  let df := {| columns := ["geometry"; "Road Number"; "speed_limit"; "KSI Count"];
               values := [[StrCell "LINESTRING (0.5 51.5, 0.6 51.6)"; StrCell "A12";
                           IntCell 30; IntCell 6]] |} in
  let r := {| geometry := LineString [(5 # 10, 515 # 10); (6 # 10, 516 # 10)];
              geometry_type := "LineString";
              Road_Number := "A12"; speed_limit := 30; KSI_Count := 6 |} in
  In (folium_static [(r, "orange")]) (Sample.run Sample.sidebar_all (Some df))
  /\ ((filter_1_4 Sample.sidebar_all = true /\ 1 <= KSI_Count r <= 4
       /\ "orange" = "yellow")
      \/ (filter_5_7 Sample.sidebar_all = true /\ 5 <= KSI_Count r <= 7
          /\ "orange" = "orange")
      \/ (filter_8 Sample.sidebar_all = true /\ 8 <= KSI_Count r /\ "orange" = "red")).
Proof.
  intros df r.
  assert (Hrun : In (folium_static [(r, "orange")])
                    (Sample.run Sample.sidebar_all (Some df))).
  { left. reflexivity. }
  split; [exact Hrun|].
  exact (@drawn_colour_matches_bucket Sample.wkt_loads Sample.intersects Sample.Tck
           Sample.splprep Sample.splev Sample.to_crs DataFrame Sample.read_csv
           Sample.astype_int Sample.astype_str Sample.str_strip
           Sample.sidebar_all (Some df) [(r, "orange")] (r, "orange")
           Hrun (or_introl eq_refl) eq_refl).
Defined.

Lemma drawn_geometries_are_lines_witness :
  let df := {| columns := ["geometry"; "Road Number"; "speed_limit"; "KSI Count"];
               values := [[StrCell "LINESTRING (0.5 51.5, 0.6 51.6)"; StrCell "A12";
                           IntCell 30; IntCell 6]] |} in
  let r := {| geometry := LineString [(5 # 10, 515 # 10); (6 # 10, 516 # 10)];
              geometry_type := "LineString";
              Road_Number := "A12"; speed_limit := 30; KSI_Count := 6 |} in
  (forall src dst g, geom_type (Sample.to_crs src dst g) = geom_type g)
  /\ In (folium_static [(r, "orange")]) (Sample.run Sample.sidebar_all (Some df))
  /\ exists cs, geometry (fst (r, "orange")) = LineString cs.
Proof.
  intros df r.
  assert (Hto : forall src dst g, geom_type (Sample.to_crs src dst g) = geom_type g).
  { intros src dst g. reflexivity. }
  assert (Hrun : In (folium_static [(r, "orange")])
                    (Sample.run Sample.sidebar_all (Some df))).
  { left. reflexivity. }
  split; [exact Hto|]. split; [exact Hrun|].
  exact (@drawn_geometries_are_lines Sample.wkt_loads Sample.intersects Sample.Tck
           Sample.splprep Sample.splev Sample.to_crs DataFrame Sample.read_csv
           Sample.astype_int Sample.astype_str Sample.str_strip
           Sample.sidebar_all (Some df) [(r, "orange")] (r, "orange")
           Hto Hrun (or_introl eq_refl)).
Defined.
